(** * SARIMA order search and six-month forecast (prediction.py)

    A shallow embedding of [prediction.py]: the data preparation, the
    grid search [optimize_sarima], the per-gas forecasting loop and the
    two output files.  The numerical library (statsmodels' SARIMAX) and the
    network fetch are not part of the program; they are taken as parameters
    of the development.  Floating-point values are IEEE 754 values of the
    Standard Library's [spec_float], compared as Python compares them. *)

From Stdlib Require Import ZArith PArith List String Ascii Bool Lia QArith.
From Stdlib Require Import Floats.SpecFloat.
From Stdlib Require Import Sorting.Permutation Sorting.Sorted.
Import ListNotations.

Local Open Scope Z_scope.

(** ** IEEE 754 scores *)

Module Float64.


Definition float := spec_float.

(** [float('inf')] *)
Definition inf : float := S754_infinity false.
Definition neg_inf : float := S754_infinity true.
Definition nan : float := S754_nan.

(** Python's [<] and [<=] on floats. *)
Definition ltb (x y : float) : bool := SFltb x y.
Definition leb (x y : float) : bool := SFleb x y.

Definition isnan (x : float) : bool :=
  match x with S754_nan => true | _ => false end.

Definition is_finite (x : float) : bool :=
  match x with
  | S754_zero _ | S754_finite _ _ _ => true
  | _ => false
  end.

(** A key whose lexicographic order is the order of [SFcompare] on the
    values that are not NaN. *)
Definition key (x : float) : Z * Z * Z :=
  match x with
  | S754_nan => (0, 0, 0)
  | S754_zero _ => (0, 0, 0)
  | S754_infinity true => (-2, 0, 0)
  | S754_infinity false => (2, 0, 0)
  | S754_finite true m e => (-1, - e, - Z.pos m)
  | S754_finite false m e => (1, e, Z.pos m)
  end.

Definition lex_lt (a b : Z * Z * Z) : Prop :=
  let '(a1, a2, a3) := a in
  let '(b1, b2, b3) := b in
  a1 < b1 \/ (a1 = b1 /\ (a2 < b2 \/ (a2 = b2 /\ a3 < b3))).

Definition lex_le (a b : Z * Z * Z) : Prop :=
  let '(a1, a2, a3) := a in
  let '(b1, b2, b3) := b in
  a1 < b1 \/ (a1 = b1 /\ (a2 < b2 \/ (a2 = b2 /\ a3 <= b3))).

End Float64.

Import Float64.

(** ** Exceptions and results

    A Python call either returns a value or raises.  An exception is its
    class name and its message. *)

Record exn : Type := mkExn { exn_class : string; exn_msg : string }.

Inductive result (A : Type) : Type :=
| Ok (a : A)
| Raise (e : exn).

Arguments Ok {A} a.
Arguments Raise {A} e.

Definition ValueError (msg : string) : exn := mkExn "ValueError" msg.
Definition KeyError (msg : string) : exn := mkExn "KeyError" msg.
(** [exit()] raises [SystemExit]. *)
Definition SystemExit : exn := mkExn "SystemExit" EmptyString.

(** ** Timestamps

    A pandas [Timestamp] at midnight: year, month (1..12), day.  [None] in an
    index stands for [NaT].  (The bounds of the nanosecond representation,
    years 1677 to 2262, are not modelled: beyond them pandas raises.) *)

Record Timestamp : Type := mkTs { year : Z; month : Z; day : Z }.

Definition ts_compare (a b : Timestamp) : comparison :=
  match year a ?= year b with
  | Eq => match month a ?= month b with
          | Eq => day a ?= day b
          | c => c
          end
  | c => c
  end.

Definition ts_leb (a b : Timestamp) : bool :=
  match ts_compare a b with Gt => false | _ => true end.

Definition is_leap (y : Z) : bool :=
  ((y mod 4 =? 0) && negb (y mod 100 =? 0)) || (y mod 400 =? 0).

Definition days_in_month (y m : Z) : Z :=
  if m =? 2 then (if is_leap y then 29 else 28)
  else if (m =? 4) || (m =? 6) || (m =? 9) || (m =? 11) then 30
  else 31.

(** [t + pd.DateOffset(months=n)]: the month moves by [n], the day is kept
    but clipped to the length of the target month. *)
Definition add_months (t : Timestamp) (n : Z) : Timestamp :=
  let k := month t - 1 + n in
  let y := year t + k / 12 in
  let m := k mod 12 + 1 in
  mkTs y m (Z.min (day t) (days_in_month y m)).

(** [NaT + pd.DateOffset(...)] is [NaT]. *)
Definition date_offset (t : option Timestamp) (n : Z) : option Timestamp :=
  option_map (fun t => add_months t n) t.

(** Anchoring of frequency ['MS']: a start that is not a month start rolls
    forward to the first day of the next month. *)
Definition rollforward_MS (t : Timestamp) : Timestamp :=
  if day t =? 1 then t else add_months (mkTs (year t) (month t) 1) 1.

(** [pd.date_range(start=start, periods=periods, freq='MS')] *)
Definition date_range (start : option Timestamp) (periods : nat)
  : result (list Timestamp) :=
  match start with
  | None => Raise (ValueError "Neither `start` nor `end` can be NaT")
  | Some t =>
      Ok (map (fun i => add_months (rollforward_MS t) (Z.of_nat i))
              (seq 0 periods))
  end.

(** [index.max()]: the greatest timestamp, [NaT] entries skipped; [NaT] when
    there is none. *)
Definition ts_max (acc : option Timestamp) (x : option Timestamp)
  : option Timestamp :=
  match acc, x with
  | None, _ => x
  | Some _, None => acc
  | Some a, Some b => if ts_leb a b then Some b else Some a
  end.

Definition index_max (idx : list (option Timestamp)) : option Timestamp :=
  fold_left ts_max idx None.

(** *** Parsing with format ['%b-%Y']

    Three letters of a month name (matched without regard to case), a dash
    and four digits; the day defaults to 1. *)

Definition to_lower (c : ascii) : ascii :=
  let n := nat_of_ascii c in
  if (65 <=? n)%nat && (n <=? 90)%nat then ascii_of_nat (n + 32) else c.

Definition month_of_abbr (a b c : ascii) : option Z :=
  let s := String (to_lower a)
             (String (to_lower b) (String (to_lower c) EmptyString)) in
  if String.eqb s "jan" then Some 1
  else if String.eqb s "feb" then Some 2
  else if String.eqb s "mar" then Some 3
  else if String.eqb s "apr" then Some 4
  else if String.eqb s "may" then Some 5
  else if String.eqb s "jun" then Some 6
  else if String.eqb s "jul" then Some 7
  else if String.eqb s "aug" then Some 8
  else if String.eqb s "sep" then Some 9
  else if String.eqb s "oct" then Some 10
  else if String.eqb s "nov" then Some 11
  else if String.eqb s "dec" then Some 12
  else None.

Definition digit_of (c : ascii) : option Z :=
  let n := nat_of_ascii c in
  if (48 <=? n)%nat && (n <=? 57)%nat then Some (Z.of_nat (n - 48)) else None.

Definition strptime_b_Y (s : string) : option Timestamp :=
  match s with
  | String a (String b (String c (String dash
      (String y1 (String y2 (String y3 (String y4 EmptyString))))))) =>
      if Ascii.eqb dash "-" then
        match month_of_abbr a b c,
              digit_of y1, digit_of y2, digit_of y3, digit_of y4 with
        | Some m, Some d1, Some d2, Some d3, Some d4 =>
            Some (mkTs (1000 * d1 + 100 * d2 + 10 * d3 + d4) m 1)
        | _, _, _, _, _ => None
        end
      else None
  | _ => None
  end.

(** [pd.to_datetime(cell, format='%b-%Y')] on one cell: a missing cell
    becomes [NaT], text that does not match the format raises. *)
Definition to_datetime (cell : option string) : result (option Timestamp) :=
  match cell with
  | None => Ok None
  | Some s =>
      match strptime_b_Y s with
      | Some t => Ok (Some t)
      | None =>
          Raise (ValueError ("time data " ++ s
                             ++ " doesn't match format %b-%Y")%string)
      end
  end.

(** ** Frames and series *)

(** The table as [pd.read_csv] returns it: the names of its columns, and per
    row the text of the [Date] cell ([None] when the cell is missing) and
    the numeric cells, a missing one (empty or ['#N/A']) being NaN. *)
Record RawRow : Type := mkRawRow {
  raw_date : option string;
  raw_cells : string -> float
}.

Record RawFrame : Type := mkRawFrame {
  raw_columns : list string;
  raw_rows : list RawRow
}.

(** A frame indexed by date. *)
Record Row : Type := mkRow {
  index : option Timestamp;
  cells : string -> float
}.

Record Frame : Type := mkFrame {
  columns : list string;
  rows : list Row
}.

(** One column of a frame with its index: [df[gas]]. *)
Definition Series : Type := list (option Timestamp * float).

Definition column (df : Frame) (name : string) : Series :=
  map (fun r => (index r, cells r name)) (rows df).

Definition series_index (ts : Series) : list (option Timestamp) :=
  map fst ts.

Definition has_column (cols : list string) (name : string) : bool :=
  existsb (String.eqb name) cols.

(** [pd.to_datetime(df['Date'], format='%b-%Y')] followed by
    [df.set_index('Date')]: the first cell that does not parse raises. *)
Fixpoint parse_dates (rs : list RawRow) : result (list Row) :=
  match rs with
  | [] => Ok []
  | r :: rest =>
      match to_datetime (raw_date r) with
      | Raise e => Raise e
      | Ok t =>
          match parse_dates rest with
          | Raise e => Raise e
          | Ok rows' => Ok (mkRow t (raw_cells r) :: rows')
          end
      end
  end.

(** Order of [sort_index]: ascending, [NaT] last. *)
Definition index_leb (a b : option Timestamp) : bool :=
  match a, b with
  | _, None => true
  | None, Some _ => false
  | Some x, Some y => ts_leb x y
  end.

Fixpoint insert_row (r : Row) (rs : list Row) : list Row :=
  match rs with
  | [] => [r]
  | r' :: rest =>
      if index_leb (index r) (index r') then r :: rs
      else r' :: insert_row r rest
  end.

(** [df.sort_index(inplace=True)] *)
Definition sort_index (rs : list Row) : list Row :=
  fold_right insert_row [] rs.

Definition target_gases : list string :=
  ["CO2_seasonal"; "CH4_seasonal"; "N2O_seasonal"; "SF6_seasonal"]%string.

(** A row survives [dropna] when none of the selected cells is missing. *)
Definition row_complete (cols : list string) (r : Row) : bool :=
  forallb (fun c => negb (isnan (cells r c))) cols.

(** [df_seasonal.dropna(inplace=True)] *)
Definition dropna (cols : list string) (rs : list Row) : list Row :=
  filter (row_complete cols) rs.

(** Section 1 of the script after the load: parse the dates, index and sort
    by them, keep the target columns, drop the incomplete rows. *)
Definition prepare (raw : RawFrame) : result Frame :=
  if negb (has_column (raw_columns raw) "Date") then Raise (KeyError "Date")
  else
    match parse_dates (raw_rows raw) with
    | Raise e => Raise e
    | Ok indexed =>
        let sorted := sort_index indexed in
        if forallb (has_column (raw_columns raw)) target_gases then
          Ok (mkFrame target_gases (dropna target_gases sorted))
        else Raise (KeyError "target_gases not in index")
    end.

(** ** The fitting primitive

    What statsmodels returns: a fitted model has an AIC and can forecast;
    a forecast has its predicted means and, for a level [alpha], a table of
    lower and upper bounds. *)

Record Prediction : Type := mkPrediction {
  predicted_mean : list float;
  conf_int : Q -> list (float * float)
}.

Record Results : Type := mkResults {
  aic : float;
  get_forecast : nat -> result Prediction
}.

(** Default level of [conf_int()]: [alpha=0.05], the two-sided 95%
    interval. *)
Definition default_alpha : Q := (5 # 100)%Q.

Definition order : Type := (Z * Z * Z)%type.
Definition seasonal_order : Type := (Z * Z * Z * Z)%type.

(** [SARIMAX(ts, order=..., seasonal_order=..., enforce_stationarity=...,
    enforce_invertibility=...).fit(disp=False)]: construction and fit in one
    call.  The orders are optional because the script can pass [None]. *)
Definition fitter : Type :=
  Series -> option order -> option seasonal_order -> bool -> bool ->
  result Results.

(** [range(lo, hi)] *)
Definition range (lo hi : Z) : list Z :=
  map (fun i => lo + Z.of_nat i) (seq 0 (Z.to_nat (hi - lo))).

(** [list(itertools.product(xs, ys, zs))]: the rightmost component advances
    fastest. *)
Definition product3 (xs ys zs : list Z) : list order :=
  flat_map (fun x => flat_map (fun y => map (fun z => (x, y, z)) zs) ys) xs.

(** ** Output of a run *)

Record ForecastRecord : Type := mkRecord {
  Gas : string;
  Date : Timestamp;
  Forecast : float;
  Lower_CI : float;
  Upper_CI : float
}.

(** One panel of the chart: the recent history of a gas, its forecast path
    and the outline of its interval band. *)
Record Panel : Type := mkPanel {
  panel_gas : string;
  historical : Series;
  forecast_path : list (Timestamp * float);
  band : list (Timestamp * float)
}.

Record Figure : Type := mkFigure {
  panels : list Panel;
  images : list string
}.

Inductive FileContent : Type :=
| Csv (records : list ForecastRecord)
| Html (fig : Figure).

(** What the process has done so far: the lines printed and the files
    written, in order. *)
Record Env : Type := mkEnv {
  stdout : list string;
  files : list (string * FileContent)
}.

Definition empty_env : Env := mkEnv [] [].

(** A computation of the script: it runs in an environment and either
    returns or raises; what it printed and wrote remains in both cases. *)
Definition M (A : Type) : Type := Env -> result A * Env.

Definition ret {A : Type} (a : A) : M A := fun env => (Ok a, env).

Definition bind {A B : Type} (m : M A) (k : A -> M B) : M B :=
  fun env =>
    match m env with
    | (Ok a, env') => k a env'
    | (Raise e, env') => (Raise e, env')
    end.

Definition lift {A : Type} (r : result A) : M A := fun env => (r, env).

Definition print (line : string) : M unit :=
  fun env => (Ok tt, mkEnv (stdout env ++ [line]) (files env)).

Definition write_file (path : string) (c : FileContent) : M unit :=
  fun env => (Ok tt, mkEnv (stdout env) (files env ++ [(path, c)])).

Notation "x <- m ;; k" := (bind m (fun x => k))
  (at level 61, m at next level, right associativity).
Notation "m ;;; k" := (bind m (fun _ => k))
  (at level 61, right associativity).

Definition forecast_horizon : nat := 6.

(** [pd.DataFrame({'Gas': gas, 'Date': dates, 'Forecast': means,
    'Lower_CI': lowers, 'Upper_CI': uppers})]: the scalar is repeated, the
    four arrays must have one length. *)
Fixpoint zip_records (gas : string) (dates : list Timestamp)
    (means lowers uppers : list float) : list ForecastRecord :=
  match dates, means, lowers, uppers with
  | d :: ds, m :: ms, l :: ls, u :: us =>
      mkRecord gas d m l u :: zip_records gas ds ms ls us
  | _, _, _, _ => []
  end.

Definition make_forecast_df (gas : string) (dates : list Timestamp)
    (means lowers uppers : list float) : result (list ForecastRecord) :=
  let n := List.length dates in
  if (List.length means =? n)%nat && (List.length lowers =? n)%nat
     && (List.length uppers =? n)%nat
  then Ok (zip_records gas dates means lowers uppers)
  else Raise (ValueError "All arrays must be of the same length").

(** [p = d = q = range(0, 2)], [P = D = Q = range(0, 2)], [s = 12] *)
Module Grid.
Definition p : list Z := range 0 2.
Definition d : list Z := p.
Definition q : list Z := p.
Definition P : list Z := range 0 2.
Definition D : list Z := P.
Definition Q : list Z := P.
Definition s : Z := 12.
End Grid.

Section Program.

(** The fitting primitive the script is run with. *)
Variable SARIMAX : fitter.

(** *** [optimize_sarima] *)

Record SearchState : Type := mkSearch {
  best_aic : float;
  best_order : option order;
  best_seasonal_order : option seasonal_order
}.

Definition search_init : SearchState := mkSearch inf None None.

(** Body of the inner loop: the [try] block and its bare [except]. *)
Definition try_candidate (ts_data : Series) (st : SearchState)
    (ord : order) (seasonal : seasonal_order) : SearchState :=
  match SARIMAX ts_data (Some ord) (Some seasonal) false false with
  | Ok results =>
      if ltb (aic results) (best_aic st)
      then mkSearch (aic results) (Some ord) (Some seasonal)
      else st
  | Raise _ => st
  end.

Definition with_period (parts : order) (seasonality : Z) : seasonal_order :=
  let '(sP, sD, sQ) := parts in (sP, sD, sQ, seasonality).

Definition search_loop (ts_data : Series)
    (param_combinations seasonal_param_combinations : list order)
    (seasonality : Z) : SearchState :=
  fold_left
    (fun st ord =>
       fold_left
         (fun st seasonal_order_parts =>
            try_candidate ts_data st ord
              (with_period seasonal_order_parts seasonality))
         seasonal_param_combinations st)
    param_combinations search_init.

Definition optimize_sarima (ts_data : Series)
    (p_range d_range q_range sP_range sD_range sQ_range : list Z)
    (seasonality : Z) : option order * option seasonal_order :=
  let param_combinations := product3 p_range d_range q_range in
  let seasonal_param_combinations := product3 sP_range sD_range sQ_range in
  let st := search_loop ts_data param_combinations
              seasonal_param_combinations seasonality in
  (best_order st, best_seasonal_order st).

(** *** The forecasting loop *)


(** Body of [for gas in target_gases]. *)
Definition forecast_gas (df : Frame) (gas : string)
  : M (list ForecastRecord) :=
  print ("Memproses: " ++ gas)%string ;;;
  let ts := column df gas in
  let '(best_order, best_seasonal_order) :=
    optimize_sarima ts Grid.p Grid.d Grid.q Grid.P Grid.D Grid.Q Grid.s in
  sarima_result <- lift (SARIMAX ts best_order best_seasonal_order
                           false false) ;;
  forecast <- lift (get_forecast sarima_result forecast_horizon) ;;
  let forecast_mean := predicted_mean forecast in
  let forecast_ci := conf_int forecast default_alpha in
  let last_data_date := index_max (series_index ts) in
  let forecast_start_date := date_offset last_data_date 1 in
  forecast_dates <- lift (date_range forecast_start_date forecast_horizon) ;;
  forecast_df <- lift (make_forecast_df gas forecast_dates forecast_mean
                         (map fst forecast_ci) (map snd forecast_ci)) ;;
  ret forecast_df.

Fixpoint forecast_loop (df : Frame) (gases : list string)
    (all_forecasts : list (list ForecastRecord))
  : M (list (list ForecastRecord)) :=
  match gases with
  | [] => ret all_forecasts
  | gas :: rest =>
      forecast_df <- forecast_gas df gas ;;
      forecast_loop df rest (all_forecasts ++ [forecast_df])
  end.

(** *** The chart *)

Definition index_geb (a : option Timestamp) (b : option Timestamp) : bool :=
  match a, b with
  | Some x, Some y => ts_leb y x
  | _, _ => false
  end.

(** [df[df.index >= df.index.max() - pd.DateOffset(months=11)]] *)
Definition historical_filtered (df : Frame) : Frame :=
  let last_12_months_start :=
    date_offset (index_max (map index (rows df))) (-11) in
  mkFrame (columns df)
    (filter (fun r => index_geb (index r) last_12_months_start) (rows df)).

Definition make_panel (hist : Frame) (final_forecast_df : list ForecastRecord)
    (gas : string) : Panel :=
  let gas_forecast :=
    filter (fun r => String.eqb (Gas r) gas) final_forecast_df in
  mkPanel gas (column hist gas)
    (map (fun r => (Date r, Forecast r)) gas_forecast)
    (map (fun r => (Date r, Upper_CI r)) gas_forecast
     ++ rev (map (fun r => (Date r, Lower_CI r)) gas_forecast)).

Definition make_figure (df : Frame) (final_forecast_df : list ForecastRecord)
    (logo : option string) : Figure :=
  let hist := historical_filtered df in
  mkFigure (map (make_panel hist final_forecast_df) target_gases)
    (match logo with
     | Some source => [source; source; source; source]
     | None => []
     end).

(** *** The script *)

Definition output_csv_path : string := "ghg_sarima_forecasts_next_6_months.csv".
Definition output_html_path : string := "index.html".

(** The whole script, given what [pd.read_csv(url)] did and the content of
    the logo file if there is one.  The printed lines are modelled without
    their leading pictographs. *)
Definition main (fetched : result RawFrame) (logo : option string) : M unit :=
  match fetched with
  | Raise e =>
      print ("Error loading data: " ++ exn_msg e)%string ;;;
      lift (Raise SystemExit)
  | Ok raw =>
      print "Data loaded successfully." ;;;
      df <- lift (prepare raw) ;;
      print "--- Memulai Prediksi SARIMA ---" ;;;
      all_forecasts <- forecast_loop df target_gases [] ;;
      let final_forecast_df := List.concat all_forecasts in
      write_file output_csv_path (Csv final_forecast_df) ;;;
      print ("Semua prediksi disimpan ke: " ++ output_csv_path)%string ;;;
      print "--- Membuat Grafik HTML Interaktif ---" ;;;
      write_file output_html_path
        (Html (make_figure df final_forecast_df logo)) ;;;
      print ("Grafik disimpan di: " ++ output_html_path)%string ;;;
      print "--- Script Selesai ---"
  end.

(** Running the script from a fresh process. *)
Definition run (fetched : result RawFrame) (logo : option string)
  : result unit * Env :=
  main fetched logo empty_env.

End Program.

(** * Vocabulary of the properties *)

(** ** The enumeration of candidates *)

Definition candidate : Type := (order * seasonal_order)%type.

(** The candidates in the order the two nested loops visit them. *)
Definition candidates (p_range d_range q_range sP_range sD_range sQ_range
    : list Z) (seasonality : Z) : list candidate :=
  list_prod (product3 p_range d_range q_range)
    (map (fun parts => with_period parts seasonality)
         (product3 sP_range sD_range sQ_range)).

(** The score of a candidate: the AIC of its fit, nothing if the fit
    raises. *)
Definition score (SARIMAX : fitter) (ts : Series) (c : candidate)
  : option float :=
  match SARIMAX ts (Some (fst c)) (Some (snd c)) false false with
  | Ok results => Some (aic results)
  | Raise _ => None
  end.

Definition step (SARIMAX : fitter) (ts : Series) (st : SearchState)
    (c : candidate) : SearchState :=
  try_candidate SARIMAX ts st (fst c) (snd c).

(** ** The order search *)

(** What holds of the running best after the candidates [seen]. *)
Record search_inv (SARIMAX : fitter) (ts : Series)
    (seen : list candidate) (st : SearchState) : Prop := {
  inv_bound : forall c b,
    In c seen -> score SARIMAX ts c = Some b -> ltb b (best_aic st) = false;
  inv_best :
    (best_order st = None /\ best_seasonal_order st = None
     /\ best_aic st = inf)
    \/ (exists i o so,
          nth_error seen i = Some (o, so)
          /\ best_order st = Some o /\ best_seasonal_order st = Some so
          /\ score SARIMAX ts (o, so) = Some (best_aic st)
          /\ ltb (best_aic st) inf = true
          /\ forall j c b, (j < i)%nat -> nth_error seen j = Some c ->
               score SARIMAX ts c = Some b -> leb b (best_aic st) = false)
}.

(** Candidate [c], the [i]-th enumerated, has the lowest score [a] among the
    candidates whose fit returned, and no earlier candidate scores as low. *)
Definition first_lowest (sc : candidate -> option float)
    (cs : list candidate) (i : nat) (c : candidate) (a : float) : Prop :=
  nth_error cs i = Some c
  /\ sc c = Some a
  /\ (forall c' b, In c' cs -> sc c' = Some b -> ltb b a = false)
  /\ (forall j c' b, (j < i)%nat -> nth_error cs j = Some c' ->
        sc c' = Some b -> leb b a = false).

Definition first_candidate : candidate := ((0, 0, 0), (0, 0, 0, 12)).

Definition script_candidates : list candidate :=
  candidates Grid.p Grid.d Grid.q Grid.P Grid.D Grid.Q Grid.s.

Definition script_search (SARIMAX : fitter) (ts : Series)
  : option order * option seasonal_order :=
  optimize_sarima SARIMAX ts Grid.p Grid.d Grid.q Grid.P Grid.D Grid.Q
    Grid.s.

(** ** The forecasting loop *)

(** What one successful pass of the loop body has done. *)
Inductive forecast_gas_spec (SARIMAX : fitter) (df : Frame) (gas : string)
    (recs : list ForecastRecord) : Prop :=
| ForecastGasSpec (results : Results) (forecast : Prediction)
    (last : Timestamp)
    (Hfit :
       SARIMAX (column df gas)
         (fst (script_search SARIMAX (column df gas)))
         (snd (script_search SARIMAX (column df gas))) false false
       = Ok results)
    (Hget : get_forecast results forecast_horizon = Ok forecast)
    (Hmax : index_max (series_index (column df gas)) = Some last)
    (Hlen_mean : List.length (predicted_mean forecast) = forecast_horizon)
    (Hlen_ci :
       List.length (conf_int forecast default_alpha) = forecast_horizon)
    (Hrecs :
       recs
       = zip_records gas
           (map (fun i =>
                   add_months (rollforward_MS (add_months last 1))
                     (Z.of_nat i))
                (seq 0 forecast_horizon))
           (predicted_mean forecast)
           (map fst (conf_int forecast default_alpha))
           (map snd (conf_int forecast default_alpha))).

Definition progress_line (gas : string) : string :=
  ("Memproses: " ++ gas)%string.

(** ** Months *)

(** The number of a month on the time line. *)
Definition month_ordinal (t : Timestamp) : Z := 12 * year t + (month t - 1).

(** A timestamp as ['%b-%Y'] produces them: first day of a month. *)
Definition month_start (t : Timestamp) : Prop :=
  day t = 1 /\ 1 <= month t <= 12.

(** Every date of a parsed index is the first day of a month. *)
Definition index_month_start (rs : list Row) : Prop :=
  forall r t, In r rs -> index r = Some t -> month_start t.

Definition start_after (last : Timestamp) : Timestamp :=
  rollforward_MS (add_months last 1).

Definition forecast_dates_of (last : Timestamp) : list Timestamp :=
  map (fun i => add_months (start_after last) (Z.of_nat i))
    (seq 0 forecast_horizon).

(** ** The interval of a record *)




(** ** Failure of the load *)

(** A table the preparation cannot use: no [Date] column, a date that does
    not follow the format, or a target column that is not there. *)
Definition malformed (raw : RawFrame) : Prop :=
  has_column (raw_columns raw) "Date" = false
  \/ (exists r s, In r (raw_rows raw) /\ raw_date r = Some s
                  /\ strptime_b_Y s = None)
  \/ (exists g, In g target_gases /\ has_column (raw_columns raw) g = false).

(** ** A sample table and sample fits *)

(** A fit that always returns, with the same AIC whatever the orders. *)
Definition no_forecast : nat -> result Prediction :=
  fun _ => Raise (ValueError "no forecast").

Definition fit_const_aic (a : float) : fitter :=
  fun _ _ _ _ _ => Ok (mkResults a no_forecast).

(** The value [m * 2^0].  The samples all have exponent 0, where the IEEE
    comparison orders them by mantissa. *)
Definition float_of_pos (m : positive) : float := S754_finite false m 0.

Definition sample_series : Series :=
  [(Some (mkTs 2024 1 1), float_of_pos 420);
   (Some (mkTs 2024 2 1), float_of_pos 421);
   (Some (mkTs 2024 3 1), float_of_pos 422)].

Definition sample_cells (co2 ch4 n2o sf6 : float) : string -> float :=
  fun name =>
    if String.eqb name "CO2_seasonal" then co2
    else if String.eqb name "CH4_seasonal" then ch4
    else if String.eqb name "N2O_seasonal" then n2o
    else if String.eqb name "SF6_seasonal" then sf6
    else nan.

Definition sample_columns : list string :=
  ["Date"; "CO2_seasonal"; "CH4_seasonal"; "N2O_seasonal";
   "SF6_seasonal"]%string.

(** Four months, out of order; the CH4 cell of November is missing. *)
Definition sample_raw : RawFrame :=
  mkRawFrame sample_columns
    [mkRawRow (Some "Oct-2024"%string)
       (sample_cells (float_of_pos 422) (float_of_pos 1930)
          (float_of_pos 337) (float_of_pos 11));
     mkRawRow (Some "Dec-2024"%string)
       (sample_cells (float_of_pos 424) (float_of_pos 1932)
          (float_of_pos 338) (float_of_pos 12));
     mkRawRow (Some "Nov-2024"%string)
       (sample_cells (float_of_pos 423) nan
          (float_of_pos 337) (float_of_pos 11));
     mkRawRow (Some "Sep-2024"%string)
       (sample_cells (float_of_pos 421) (float_of_pos 1929)
          (float_of_pos 336) (float_of_pos 11))].

Definition sample_clean : Frame :=
  mkFrame target_gases
    (dropna target_gases
       (sort_index
          (map (fun '(t, r) => mkRow (Some t) (raw_cells r))
             (combine [mkTs 2024 10 1; mkTs 2024 12 1; mkTs 2024 11 1;
                       mkTs 2024 9 1]
                (raw_rows sample_raw))))).

(** A fit that returns for every pair of orders: its AIC is lowest at
    order (1,0,0) with seasonal order (0,0,0,s); its forecast repeats the
    level of the last observation, with an interval of one unit on each
    side.  Absent orders are refused. *)
Definition sample_aic (o : order) (so : seasonal_order) : float :=
  let '(p, d, q) := o in
  let '(sP, sD, sQ, _) := so in
  float_of_pos (Z.to_pos (100 + Z.abs (p - 1) + d + q + sP + sD + sQ)).

(** The value one unit below or above a positive integer value [m]. *)
Definition unit_shift (up : bool) (m : positive) : float :=
  float_of_pos (if up then Pos.succ m else Pos.pred m).

(** The last observation when it is a positive integer value, 1
    otherwise. *)
Definition last_level (ts : Series) : positive :=
  match List.last (map snd ts) nan with
  | S754_finite false m 0 => m
  | _ => 1%positive
  end.

Definition sample_forecast (ts : Series) (n : nat) : Prediction :=
  let m := last_level ts in
  mkPrediction (repeat (float_of_pos m) n)
    (fun _ => repeat (unit_shift false m, unit_shift true m) n).

Definition TypeError (msg : string) : exn := mkExn "TypeError" msg.

Definition fit_sample : fitter :=
  fun ts o so _ _ =>
    match o, so with
    | Some o, Some so =>
        Ok (mkResults (sample_aic o so) (fun n => Ok (sample_forecast ts n)))
    | _, _ => Raise (TypeError "'NoneType' object is not subscriptable")
    end.

(** A fit that raises whatever it is given: on an empty series because
    there is nothing to fit, with orders on a series with data because the
    optimisation breaks down, and without orders because there is no
    order. *)
Definition LinAlgError (msg : string) : exn := mkExn "LinAlgError" msg.

Definition fit_failing : fitter :=
  fun ts o so _ _ =>
    match o, so with
    | Some _, Some _ =>
        match ts with
        | [] => Raise (ValueError "zero-size array")
        | _ :: _ => Raise (LinAlgError "Singular matrix")
        end
    | _, _ => Raise (TypeError "'NoneType' object is not subscriptable")
    end.

(** A table whose SF6 column is missing throughout: nothing is left after
    cleaning. *)
Definition sample_raw_missing : RawFrame :=
  mkRawFrame sample_columns
    [mkRawRow (Some "Sep-2024"%string)
       (sample_cells (float_of_pos 421) (float_of_pos 1929)
          (float_of_pos 336) nan);
     mkRawRow (Some "Oct-2024"%string)
       (sample_cells (float_of_pos 422) (float_of_pos 1930)
          (float_of_pos 337) nan)].

(** A table with a date that does not follow ['%b-%Y']. *)
Definition sample_raw_bad_date : RawFrame :=
  mkRawFrame sample_columns
    [mkRawRow (Some "2024-09"%string)
       (sample_cells (float_of_pos 421) (float_of_pos 1929)
          (float_of_pos 336) (float_of_pos 11))].

Definition co2 : string := "CO2_seasonal".

(** The six records the sample fit yields for CO2: January to June 2025,
    at the level of December 2024. *)
Definition sample_co2_records : list ForecastRecord :=
  map (fun m =>
         mkRecord co2 (mkTs 2025 m 1) (float_of_pos 424) (float_of_pos 423)
           (float_of_pos 425))
    [1; 2; 3; 4; 5; 6].

(** ** Further vocabulary *)

(** Two ranges with the same elements, in any order and however often. *)
Definition same_elements (l l' : list Z) : Prop :=
  forall x, In x l <-> In x l'.

(** No two different candidates of [cs] have equal scores. *)
Definition no_ties (SARIMAX : fitter) (ts : Series) (cs : list candidate)
  : Prop :=
  forall c c' a b,
    In c cs -> In c' cs ->
    score SARIMAX ts c = Some a -> score SARIMAX ts c' = Some b ->
    leb a b = true -> leb b a = true -> c = c'.

(** Rows in the order of [sort_index]: ascending dates, [NaT] last. *)
Definition row_le (a b : Row) : Prop :=
  index_leb (index a) (index b) = true.

(** [final_forecast_df[final_forecast_df['Gas'] == gas]] *)
Definition gas_rows (gas : string) (recs : list ForecastRecord)
  : list ForecastRecord :=
  filter (fun r => String.eqb (Gas r) gas) recs.

(** The lines printed before the forecasting loop starts. *)
Definition preamble : list string :=
  ["Data loaded successfully."; "--- Memulai Prediksi SARIMA ---"]%string.

(** A fit that returns a forecast of [n] steps whatever the number of
    steps asked for. *)
Definition fit_steps (n : nat) : fitter :=
  fun ts o so _ _ =>
    Ok (mkResults (float_of_pos 100) (fun _ => Ok (sample_forecast ts n))).

(** A table with a missing date cell. *)
Definition sample_raw_nat : RawFrame :=
  mkRawFrame sample_columns
    [mkRawRow None
       (sample_cells (float_of_pos 421) (float_of_pos 1929)
          (float_of_pos 336) (float_of_pos 11))].

(** A fit that breaks down on the series whose last level is 1932 (CH4 in
    the sample table) and is the sample fit otherwise. *)
Definition fit_failing_ch4 : fitter :=
  fun ts o so a b =>
    if Pos.eqb (last_level ts) 1932
    then Raise (LinAlgError "Singular matrix")
    else fit_sample ts o so a b.

(** What the run on the sample table with the sample fit leaves behind. *)
Definition sample_env : Env := snd (run fit_sample (Ok sample_raw) None).

(** The sample table with a missing date cell, prepared. *)
Definition sample_clean_nat : Frame :=
  mkFrame target_gases
    [mkRow None
       (sample_cells (float_of_pos 421) (float_of_pos 1929)
          (float_of_pos 336) (float_of_pos 11))].

(** * Properties *)

(** ** Order facts of the IEEE comparison *)

Module Float64Facts.

Ltac cmp_cases :=
  repeat match goal with
    | |- context [Z.compare ?a ?b] => destruct (Z.compare_spec a b)
    | |- context [Pos.compare_cont Eq ?a ?b] =>
        change (Pos.compare_cont Eq a b) with (Pos.compare a b);
        destruct (Pos.compare_spec a b)
    end.

Lemma ltb_key (x y : float) :
  isnan x = false -> isnan y = false ->
  (ltb x y = true <-> lex_lt (key x) (key y)).
Proof.
  unfold ltb, SFltb.
  destruct x as [sx|sx| |sx mx ex], y as [sy|sy| |sy my ey];
    try discriminate; intros _ _;
    try destruct sx; try destruct sy; cbn -[Z.compare Pos.compare_cont];
    cmp_cases; cbn; split; intros Hk; try discriminate; try reflexivity;
    try lia.
Qed.

Lemma leb_key (x y : float) :
  isnan x = false -> isnan y = false ->
  (leb x y = true <-> lex_le (key x) (key y)).
Proof.
  unfold leb, SFleb.
  destruct x as [sx|sx| |sx mx ex], y as [sy|sy| |sy my ey];
    try discriminate; intros _ _;
    try destruct sx; try destruct sy; cbn -[Z.compare Pos.compare_cont];
    cmp_cases; cbn; split; intros Hk; try discriminate; try reflexivity;
    try lia.
Qed.

Lemma ltb_nan_l (y : float) : ltb nan y = false.
Proof. reflexivity. Qed.

Lemma ltb_nan_r (x : float) : ltb x nan = false.
Proof. destruct x as [s|s| |s m e]; reflexivity. Qed.

Lemma leb_nan_l (y : float) : leb nan y = false.
Proof. reflexivity. Qed.

Lemma leb_nan_r (x : float) : leb x nan = false.
Proof. destruct x as [s|s| |s m e]; reflexivity. Qed.

Lemma ltb_true_not_nan (x y : float) :
  ltb x y = true -> isnan x = false /\ isnan y = false.
Proof.
  destruct x as [s|s| |s m e]; [| |rewrite ltb_nan_l; discriminate|];
    (destruct y as [s'|s'| |s' m' e']; [| |rewrite ltb_nan_r; discriminate|]);
    intros _; split; reflexivity.
Qed.

Lemma leb_true_not_nan (x y : float) :
  leb x y = true -> isnan x = false /\ isnan y = false.
Proof.
  destruct x as [s|s| |s m e]; [| |rewrite leb_nan_l; discriminate|];
    (destruct y as [s'|s'| |s' m' e']; [| |rewrite leb_nan_r; discriminate|]);
    intros _; split; reflexivity.
Qed.

Lemma ltb_irrefl (x : float) : ltb x x = false.
Proof.
  destruct (isnan x) eqn:Hn.
  - destruct x; try discriminate. reflexivity.
  - destruct (ltb x x) eqn:H; [|reflexivity].
    apply (ltb_key x x Hn Hn) in H.
    unfold lex_lt in H. destruct (key x) as [[a b] c]. lia.
Qed.

Lemma ltb_leb (x y : float) : ltb x y = true -> leb x y = true.
Proof.
  intros H. destruct (ltb_true_not_nan _ _ H) as [Hx Hy].
  apply (leb_key x y Hx Hy). apply (ltb_key x y Hx Hy) in H.
  unfold lex_lt, lex_le in *.
  destruct (key x) as [[a b] c], (key y) as [[a' b'] c']. lia.
Qed.

Lemma leb_ltb_trans (x y z : float) :
  leb x y = true -> ltb y z = true -> ltb x z = true.
Proof.
  intros H1 H2.
  destruct (leb_true_not_nan _ _ H1) as [Hx Hy].
  destruct (ltb_true_not_nan _ _ H2) as [_ Hz].
  apply (ltb_key x z Hx Hz).
  apply (leb_key x y Hx Hy) in H1. apply (ltb_key y z Hy Hz) in H2.
  unfold lex_lt, lex_le in *.
  destruct (key x) as [[a b] c], (key y) as [[a' b'] c'],
           (key z) as [[a'' b''] c'']. lia.
Qed.

Lemma ltb_trans (x y z : float) :
  ltb x y = true -> ltb y z = true -> ltb x z = true.
Proof. intros H1 H2. apply (leb_ltb_trans x y z); auto using ltb_leb. Qed.

(** What compares strictly below [float('inf')]: everything but NaN and
    [+inf] itself. *)
Lemma ltb_inf_iff (x : float) :
  ltb x inf = true <-> isnan x = false /\ x <> inf.
Proof.
  unfold inf.
  destruct x as [s|[|]| |[|] m e]; cbn; split; intros H;
    try discriminate H; try reflexivity;
    try (split; [reflexivity | discriminate]);
    destruct H as [H1 H2]; try discriminate H1; congruence.
Qed.

Lemma finite_ltb_inf (x : float) : is_finite x = true -> ltb x inf = true.
Proof. destruct x as [s|s| |[|] m e]; try discriminate; reflexivity. Qed.

End Float64Facts.

Import Float64Facts.

(** ** The enumeration of candidates *)

Lemma in_product3 (xs ys zs : list Z) (x y z : Z) :
  In (x, y, z) (product3 xs ys zs) <-> In x xs /\ In y ys /\ In z zs.
Proof.
  unfold product3. rewrite in_flat_map. split.
  - intros (x' & Hx & H). rewrite in_flat_map in H.
    destruct H as (y' & Hy & H). rewrite in_map_iff in H.
    destruct H as (z' & Heq & Hz). inversion Heq; subst. auto.
  - intros (Hx & Hy & Hz). exists x. split; [assumption|].
    rewrite in_flat_map. exists y. split; [assumption|].
    rewrite in_map_iff. exists z. auto.
Qed.

Lemma length_product3 (xs ys zs : list Z) :
  List.length (product3 xs ys zs)
  = (List.length xs * List.length ys * List.length zs)%nat.
Proof.
  unfold product3.
  rewrite flat_map_constant_length
    with (c := (List.length ys * List.length zs)%nat).
  - lia.
  - intros x _. rewrite flat_map_constant_length with (c := List.length zs).
    + reflexivity.
    + intros y _. apply length_map.
Qed.

Lemma in_candidates (p d q sP sD sQ : list Z) (s : Z)
    (a b c e f g s' : Z) :
  In ((a, b, c), (e, f, g, s')) (candidates p d q sP sD sQ s)
  <-> In a p /\ In b d /\ In c q /\ In e sP /\ In f sD /\ In g sQ /\ s' = s.
Proof.
  unfold candidates. rewrite in_prod_iff, in_product3, in_map_iff. split.
  - intros ((Ha & Hb & Hc) & ([[e' f'] g'] & Heq & Hin)).
    cbn in Heq. inversion Heq; subst.
    apply in_product3 in Hin. tauto.
  - intros (Ha & Hb & Hc & He & Hf & Hg & ->).
    split; [tauto|]. exists (e, f, g). split; [reflexivity|].
    apply in_product3. tauto.
Qed.

Lemma length_candidates (p d q sP sD sQ : list Z) (s : Z) :
  List.length (candidates p d q sP sD sQ s)
  = (List.length p * List.length d * List.length q
     * (List.length sP * List.length sD * List.length sQ))%nat.
Proof.
  unfold candidates, candidate.
  rewrite List.length_prod, List.length_map, !length_product3. reflexivity.
Qed.

Section SearchFacts.

Variable SARIMAX : fitter.
Variable ts : Series.

(** The two nested loops are one pass over [candidates]. *)
Lemma search_loop_flat (pcs spcs : list order) (s : Z) :
  search_loop SARIMAX ts pcs spcs s
  = fold_left (step SARIMAX ts)
      (list_prod pcs (map (fun parts => with_period parts s) spcs))
      (search_init).
Proof.
  unfold search_loop. generalize search_init as st.
  induction pcs as [|o pcs IH]; intros st; cbn; [reflexivity|].
  rewrite fold_left_app, IH. f_equal.
  clear IH. revert st.
  induction spcs as [|parts spcs IH]; intros st; cbn; [reflexivity|].
  apply IH.
Qed.

Lemma search_inv_init : search_inv SARIMAX ts [] search_init.
Proof.
  split.
  - intros c b [].
  - left. cbn. auto.
Qed.

Lemma search_inv_keep (seen : list candidate) (st : SearchState)
    (c : candidate) :
  search_inv SARIMAX ts seen st ->
  (forall b, score SARIMAX ts c = Some b -> ltb b (best_aic st) = false) ->
  search_inv SARIMAX ts (seen ++ [c]) st.
Proof.
  intros [Hb Hbest] Hc. split.
  - intros c' b Hin Hs. apply in_app_or in Hin. destruct Hin as [Hin|[<-|[]]].
    + eauto.
    + auto.
  - destruct Hbest as [H|(i & o & so & Hi & Ho & Hso & Hsc & Hlt & Hfirst)].
    + left. exact H.
    + right. exists i, o, so.
      assert (Hlen : (i < List.length seen)%nat).
      { apply nth_error_Some. congruence. }
      repeat split; try assumption.
      * rewrite nth_error_app1 by assumption. exact Hi.
      * intros j c' b Hj Hnth Hs.
        rewrite nth_error_app1 in Hnth by lia. eauto.
Qed.

Lemma search_inv_update (seen : list candidate) (st : SearchState)
    (o : order) (so : seasonal_order) (a : float) :
  search_inv SARIMAX ts seen st ->
  score SARIMAX ts (o, so) = Some a ->
  ltb a (best_aic st) = true ->
  search_inv SARIMAX ts (seen ++ [(o, so)]) (mkSearch a (Some o) (Some so)).
Proof.
  intros [Hb Hbest] Hs Hlt.
  assert (Hprev : forall c b, In c seen -> score SARIMAX ts c = Some b ->
                    leb b a = false).
  { intros c b Hin Hsc. destruct (leb b a) eqn:Hle; [|reflexivity].
    pose proof (Hb c b Hin Hsc) as Hx.
    rewrite (leb_ltb_trans _ _ _ Hle Hlt) in Hx. discriminate. }
  split; cbn.
  - intros c b Hin Hsc. apply in_app_or in Hin. destruct Hin as [Hin|[<-|[]]].
    + destruct (ltb b a) eqn:Hba; [|reflexivity].
      apply ltb_leb in Hba. rewrite (Hprev c b Hin Hsc) in Hba. discriminate.
    + rewrite Hs in Hsc. inversion Hsc; subst. apply ltb_irrefl.
  - right. exists (List.length seen), o, so. repeat split.
    + rewrite nth_error_app2 by lia. rewrite Nat.sub_diag. reflexivity.
    + exact Hs.
    + destruct Hbest
        as [(_ & _ & Hinf)|(i & o' & so' & _ & _ & _ & _ & Hl & _)].
      * rewrite <- Hinf. exact Hlt.
      * exact (ltb_trans _ _ _ Hlt Hl).
    + intros j c b Hj Hnth Hsc.
      rewrite nth_error_app1 in Hnth by assumption.
      apply nth_error_In in Hnth. eauto.
Qed.

Lemma search_inv_step (seen : list candidate) (st : SearchState)
    (c : candidate) :
  search_inv SARIMAX ts seen st ->
  search_inv SARIMAX ts (seen ++ [c]) (step SARIMAX ts st c).
Proof.
  intros Hinv. destruct c as [o so].
  unfold step, try_candidate. cbn [fst snd].
  destruct (SARIMAX ts (Some o) (Some so) false false) as [r|e] eqn:Hfit.
  - assert (Hs : score SARIMAX ts (o, so) = Some (aic r)).
    { unfold score. cbn [fst snd]. rewrite Hfit. reflexivity. }
    destruct (ltb (aic r) (best_aic st)) eqn:Hlt.
    + apply (search_inv_update seen st); assumption.
    + apply search_inv_keep; [assumption|].
      intros b Hb. rewrite Hs in Hb. inversion Hb; subst. exact Hlt.
  - apply search_inv_keep; [assumption|].
    intros b Hb. unfold score in Hb. cbn [fst snd] in Hb.
    rewrite Hfit in Hb. discriminate.
Qed.

Lemma search_inv_fold (cs seen : list candidate) (st : SearchState) :
  search_inv SARIMAX ts seen st ->
  search_inv SARIMAX ts (seen ++ cs) (fold_left (step SARIMAX ts) cs st).
Proof.
  revert seen st. induction cs as [|c cs IH]; intros seen st Hinv; cbn.
  - rewrite app_nil_r. exact Hinv.
  - replace (seen ++ c :: cs) with ((seen ++ [c]) ++ cs)
      by (rewrite <- app_assoc; reflexivity).
    apply IH. apply search_inv_step. exact Hinv.
Qed.

Lemma search_inv_final (p d q sP sD sQ : list Z) (s : Z) :
  search_inv SARIMAX ts (candidates p d q sP sD sQ s)
    (search_loop SARIMAX ts (product3 p d q) (product3 sP sD sQ) s).
Proof.
  rewrite search_loop_flat.
  apply (search_inv_fold _ [] search_init search_inv_init).
Qed.

End SearchFacts.

(** ** What the order search returns *)

Section SearchTheorems.

Variable SARIMAX : fitter.
Variable ts : Series.
Variables p d q sP sD sQ : list Z.
Variable s : Z.

Let cs := candidates p d q sP sD sQ s.
Let sc := score SARIMAX ts.
Let found := optimize_sarima SARIMAX ts p d q sP sD sQ s.

Lemma search_result_cases :
  (found = (None, None)
   /\ forall c b, In c cs -> sc c = Some b -> ltb b inf = false)
  \/ (exists i c a,
        found = (Some (fst c), Some (snd c))
        /\ first_lowest sc cs i c a /\ ltb a inf = true).
Proof.
  destruct (search_inv_final SARIMAX ts p d q sP sD sQ s) as [Hb Hbest].
  unfold found, optimize_sarima.
  set (st := search_loop SARIMAX ts (product3 p d q) (product3 sP sD sQ) s)
    in *.
  destruct Hbest as [(Ho & Hso & Hinf)
                    |(i & o & so & Hi & Ho & Hso & Hsc & Hlt & Hfirst)].
  - left. rewrite Ho, Hso. split; [reflexivity|].
    intros c b Hin Hs. rewrite <- Hinf. exact (Hb c b Hin Hs).
  - right. exists i, (o, so), (best_aic st). cbn [fst snd].
    rewrite Ho, Hso. repeat split; try assumption.
Qed.

(** C1 (amended): the search goes through the full Cartesian product of the
    six ranges, every combination once per occurrence: its two nested loops
    try each candidate of the product list in turn, none skipped and with
    no early exit.  It returns the first
    enumerated candidate whose AIC is lowest among the fits that returned,
    provided that AIC compares strictly below +infinity; fits that raise
    have no score and take no part.  When no fit returned a score strictly
    below +infinity (none returned, or all scores are NaN or +infinity) the
    search returns no order pair. *)
Theorem optimize_sarima_first_lowest_below_inf :
  (forall a b c e f g s',
      In ((a, b, c), (e, f, g, s')) cs
      <-> In a p /\ In b d /\ In c q /\ In e sP /\ In f sD /\ In g sQ
          /\ s' = s)
  /\ List.length cs
     = (List.length p * List.length d * List.length q
        * (List.length sP * List.length sD * List.length sQ))%nat
  /\ search_loop SARIMAX ts (product3 p d q) (product3 sP sD sQ) s
     = fold_left (step SARIMAX ts) cs search_init
  /\ ((exists i c a,
         first_lowest sc cs i c a /\ ltb a inf = true
         /\ found = (Some (fst c), Some (snd c)))
      \/ ((forall c a, In c cs -> sc c = Some a -> ltb a inf = false)
          /\ found = (None, None))).
Proof.
  split; [|split; [|split]].
  - intros. apply in_candidates.
  - apply length_candidates.
  - apply search_loop_flat.
  - destruct search_result_cases as [[H1 H2]|(i & c & a & H1 & H2 & H3)].
    + right. auto.
    + left. exists i, c, a. auto.
Qed.

(** C4 (amended): the search returns either both orders or neither, never
    one without the other; when it returns both, they are a candidate of the
    grid whose fit returned an AIC that is not NaN and not +infinity (it is
    finite unless it is -infinity). *)
Theorem optimize_sarima_all_or_nothing :
  found = (None, None)
  \/ (exists o so a,
        found = (Some o, Some so)
        /\ In (o, so) cs
        /\ sc (o, so) = Some a
        /\ isnan a = false /\ a <> inf
        /\ (a = neg_inf \/ is_finite a = true)).
Proof.
  destruct search_result_cases as [[H1 H2]|(i & [o so] & a & H1 & H2 & H3)].
  - left. exact H1.
  - right. exists o, so, a. destruct H2 as (Hn & Hs & _ & _).
    apply ltb_inf_iff in H3. destruct H3 as [Hnan Hinf].
    repeat split; try assumption.
    + exact (nth_error_In _ _ Hn).
    + destruct a as [sg|[|]| |sg m e]; cbn; auto; try discriminate.
Qed.

(** C10: the running best starts at +infinity and a fit that returned
    replaces it exactly when its AIC compares strictly less; hence a
    candidate whose AIC is NaN is never the one returned, and when every
    fit that returned has a NaN AIC the search returns no order pair. *)
Theorem optimize_sarima_strict_less_skips_nan :
  best_aic search_init = inf
  /\ (forall st o so r,
        SARIMAX ts (Some o) (Some so) false false = Ok r ->
        try_candidate SARIMAX ts st o so
        = if ltb (aic r) (best_aic st)
          then mkSearch (aic r) (Some o) (Some so) else st)
  /\ (forall st o so r,
        SARIMAX ts (Some o) (Some so) false false = Ok r ->
        isnan (aic r) = true -> try_candidate SARIMAX ts st o so = st)
  /\ (forall c a, sc c = Some a -> isnan a = true ->
        found <> (Some (fst c), Some (snd c)))
  /\ ((forall c a, In c cs -> sc c = Some a -> isnan a = true) ->
      found = (None, None)).
Proof.
  split; [reflexivity|]. split; [|split; [|split]].
  - intros st o so r Hfit. unfold try_candidate. rewrite Hfit. reflexivity.
  - intros st o so r Hfit Hnan. unfold try_candidate. rewrite Hfit.
    destruct (aic r); try discriminate. reflexivity.
  - intros c a Hs Hnan Hfound.
    destruct search_result_cases as [[H1 _]|(i & c' & a' & H1 & H2 & H3)].
    + rewrite H1 in Hfound. discriminate.
    + rewrite H1 in Hfound. destruct c as [o so], c' as [o' so'].
      cbn in Hfound. inversion Hfound; subst.
      destruct H2 as (_ & Hs' & _). rewrite Hs in Hs'. inversion Hs'; subst.
      destruct a'; try discriminate.
  - intros Hall.
    destruct search_result_cases as [[H1 _]|(i & c' & a' & H1 & H2 & H3)].
    + exact H1.
    + destruct H2 as (Hn & Hs & _). apply nth_error_In in Hn.
      specialize (Hall c' a' Hn Hs). destruct a'; discriminate.
Qed.

End SearchTheorems.

(** *** The search at concrete fits *)

(** The first candidates the script tries, in order: the seasonal triple
    advances inside the non-seasonal one, the rightmost component fastest. *)
Example script_candidates_head :
  firstn 3 script_candidates
  = [((0, 0, 0), (0, 0, 0, 12)); ((0, 0, 0), (0, 0, 1, 12));
     ((0, 0, 0), (0, 1, 0, 12))]
  /\ nth_error script_candidates 8 = Some ((0, 0, 1), (0, 0, 0, 12))
  /\ List.length script_candidates = 64%nat.
Proof. repeat split. Qed.

Lemma score_fit_const (a : float) (ts : Series) (c : candidate) :
  score (fit_const_aic a) ts c = Some a.
Proof. reflexivity. Qed.

Lemma first_lowest_fit_const (a : float) (ts : Series) :
  first_lowest (score (fit_const_aic a) ts) script_candidates 0
    first_candidate a.
Proof.
  repeat split.
  - intros c' b _ Hs. rewrite score_fit_const in Hs.
    inversion Hs; subst. apply ltb_irrefl.
  - intros j c' b Hj. inversion Hj.
Qed.

(** C1, as stated, fails: when the only scores are +infinity, or NaN, the
    first candidate is the first-enumerated lowest-scoring one among those
    that converged, yet the search returns no order pair. *)
Lemma optimize_sarima_lowest_counterexample :
  (first_lowest (score (fit_const_aic inf) sample_series) script_candidates 0
     first_candidate inf
   /\ script_search (fit_const_aic inf) sample_series = (None, None))
  /\ (first_lowest (score (fit_const_aic nan) sample_series)
        script_candidates 0 first_candidate nan
      /\ script_search (fit_const_aic nan) sample_series = (None, None)).
Proof.
  split; (split; [apply first_lowest_fit_const | vm_compute; reflexivity]).
Qed.

(** C4, as stated, fails: a fit whose AIC is -infinity is selected, and the
    score of the returned order pair is then not finite. *)
Lemma optimize_sarima_finite_counterexample :
  script_search (fit_const_aic neg_inf) sample_series
  = (Some (fst first_candidate), Some (snd first_candidate))
  /\ score (fit_const_aic neg_inf) sample_series first_candidate
     = Some neg_inf
  /\ is_finite neg_inf = false.
Proof. vm_compute. auto. Qed.

(** C10 at a fit whose AIC is always NaN: all 64 candidates converge and
    none is returned. *)
Lemma optimize_sarima_strict_less_skips_nan_witness :
  List.length script_candidates = 64%nat
  /\ (forall c, In c script_candidates ->
        score (fit_const_aic nan) sample_series c = Some nan)
  /\ script_search (fit_const_aic nan) sample_series = (None, None).
Proof.
  split; [reflexivity|]. split; [intros c _; reflexivity|].
  apply (optimize_sarima_strict_less_skips_nan (fit_const_aic nan)
           sample_series Grid.p Grid.d Grid.q Grid.P Grid.D Grid.Q Grid.s).
  intros c a _ Hs. rewrite score_fit_const in Hs. inversion Hs. reflexivity.
Defined.

(** ** Records built from the forecast arrays *)

Lemma zip_records_spec (gas : string) (dates : list Timestamp) :
  forall means lowers uppers : list float,
    List.length means = List.length dates ->
    List.length lowers = List.length dates ->
    List.length uppers = List.length dates ->
    let recs := zip_records gas dates means lowers uppers in
    map Date recs = dates
    /\ map Forecast recs = means
    /\ map Lower_CI recs = lowers
    /\ map Upper_CI recs = uppers
    /\ Forall (fun r => Gas r = gas) recs.
Proof.
  induction dates as [|t dates IH]; intros means lowers uppers Hm Hl Hu.
  - destruct means, lowers, uppers; try discriminate.
    cbn. repeat split. constructor.
  - destruct means as [|m means], lowers as [|l lowers],
      uppers as [|u uppers]; try discriminate.
    cbn in Hm, Hl, Hu. injection Hm as Hm. injection Hl as Hl.
    injection Hu as Hu.
    destruct (IH means lowers uppers Hm Hl Hu) as (H1 & H2 & H3 & H4 & H5).
    cbn. rewrite H1, H2, H3, H4. repeat split. constructor; auto.
Qed.

Lemma make_forecast_df_ok (gas : string) (dates : list Timestamp)
    (means lowers uppers : list float) (recs : list ForecastRecord) :
  make_forecast_df gas dates means lowers uppers = Ok recs ->
  List.length means = List.length dates
  /\ List.length lowers = List.length dates
  /\ List.length uppers = List.length dates
  /\ recs = zip_records gas dates means lowers uppers.
Proof.
  unfold make_forecast_df.
  destruct (List.length means =? List.length dates)%nat eqn:Hm;
    [|discriminate].
  destruct (List.length lowers =? List.length dates)%nat eqn:Hl;
    [|discriminate].
  destruct (List.length uppers =? List.length dates)%nat eqn:Hu;
    [|discriminate].
  cbn. intros H. inversion H.
  apply Nat.eqb_eq in Hm, Hl, Hu. auto.
Qed.

Lemma date_range_ok (start : option Timestamp) (n : nat)
    (dates : list Timestamp) :
  date_range start n = Ok dates ->
  exists t, start = Some t
    /\ dates = map (fun i => add_months (rollforward_MS t) (Z.of_nat i))
                 (seq 0 n).
Proof.
  destruct start as [t|]; cbn; [|discriminate].
  intros H. inversion H. eauto.
Qed.

(** ** The forecasting loop *)

Section ForecastFacts.

Variable SARIMAX : fitter.

Lemma forecast_gas_ok (df : Frame) (gas : string) (env env' : Env)
    (recs : list ForecastRecord) :
  forecast_gas SARIMAX df gas env = (Ok recs, env') ->
  forecast_gas_spec SARIMAX df gas recs
  /\ env' = mkEnv (stdout env ++ [progress_line gas]) (files env).
Proof.
  unfold forecast_gas, script_search, bind, print, lift, ret.
  destruct (optimize_sarima SARIMAX (column df gas) Grid.p Grid.d Grid.q
              Grid.P Grid.D Grid.Q Grid.s) as [bo bso] eqn:Hsearch.
  cbn [fst snd].
  destruct (SARIMAX (column df gas) bo bso false false) as [r|e] eqn:Hfit;
    [|discriminate].
  destruct (get_forecast r forecast_horizon) as [fc|e] eqn:Hget;
    [|discriminate].
  destruct (date_range _ forecast_horizon) as [dates|e] eqn:Hdates;
    [|discriminate].
  destruct (make_forecast_df gas dates _ _ _) as [recs'|e] eqn:Hdf;
    [|discriminate].
  intros H. inversion H; subst. split; [|reflexivity].
  apply date_range_ok in Hdates. destruct Hdates as (t & Hstart & ->).
  unfold date_offset in Hstart.
  destruct (index_max (series_index (column df gas))) as [last|] eqn:Hmax;
    [|discriminate].
  cbn in Hstart. inversion Hstart; subst t.
  apply make_forecast_df_ok in Hdf.
  destruct Hdf as (Hm & Hl & Hu & ->).
  rewrite !List.length_map, List.length_seq in Hm.
  rewrite !List.length_map, List.length_seq in Hl.
  refine (ForecastGasSpec SARIMAX df gas _ r fc last _ Hget Hmax Hm Hl eq_refl).
  unfold script_search. rewrite Hsearch. exact Hfit.
Qed.

(** Nothing is written while the loop runs, whatever its outcome. *)
Lemma forecast_gas_files (df : Frame) (gas : string) (env env' : Env)
    (r : result (list ForecastRecord)) :
  forecast_gas SARIMAX df gas env = (r, env') -> files env' = files env.
Proof.
  unfold forecast_gas, bind, print, lift, ret.
  destruct (optimize_sarima SARIMAX (column df gas) Grid.p Grid.d Grid.q
              Grid.P Grid.D Grid.Q Grid.s) as [bo bso].
  destruct (SARIMAX (column df gas) bo bso false false) as [res|e];
    [|intros H; inversion H; reflexivity].
  destruct (get_forecast res forecast_horizon) as [fc|e];
    [|intros H; inversion H; reflexivity].
  destruct (date_range _ forecast_horizon) as [dates|e];
    [|intros H; inversion H; reflexivity].
  destruct (make_forecast_df gas dates _ _ _) as [recs'|e];
    intros H; inversion H; reflexivity.
Qed.

Lemma forecast_loop_files (df : Frame) (gases : list string) :
  forall acc env env' r,
    forecast_loop SARIMAX df gases acc env = (r, env') ->
    files env' = files env.
Proof.
  induction gases as [|gas gases IH]; intros acc env env' r; cbn.
  - unfold ret. intros H. inversion H. reflexivity.
  - unfold bind.
    destruct (forecast_gas SARIMAX df gas env) as [[recs|e] env1] eqn:Hgas.
    + intros H. apply IH in H. rewrite H.
      exact (forecast_gas_files _ _ _ _ _ Hgas).
    + intros H. inversion H; subst.
      exact (forecast_gas_files _ _ _ _ _ Hgas).
Qed.

Lemma forecast_loop_ok (df : Frame) (gases : list string) :
  forall acc env env' out,
    forecast_loop SARIMAX df gases acc env = (Ok out, env') ->
    exists dfs,
      out = acc ++ dfs
      /\ Forall2 (forecast_gas_spec SARIMAX df) gases dfs.
Proof.
  induction gases as [|gas gases IH]; intros acc env env' out; cbn.
  - unfold ret. intros H. inversion H. exists []. rewrite app_nil_r. auto.
  - unfold bind.
    destruct (forecast_gas SARIMAX df gas env) as [[recs|e] env1] eqn:Hgas;
      [|discriminate].
    intros H. apply IH in H. destruct H as (dfs & -> & Hall).
    exists (recs :: dfs). split.
    + rewrite <- app_assoc. reflexivity.
    + constructor; [|assumption].
      exact (proj1 (forecast_gas_ok _ _ _ _ _ Hgas)).
Qed.


(** The script ends normally only by writing its two files, after every
    gas has been forecast. *)
Lemma run_ok (fetched : result RawFrame) (logo : option string) (env : Env) :
  run SARIMAX fetched logo = (Ok tt, env) ->
  exists raw df dfs,
    fetched = Ok raw
    /\ prepare raw = Ok df
    /\ Forall2 (forecast_gas_spec SARIMAX df) target_gases dfs
    /\ files env
       = [(output_csv_path, Csv (List.concat dfs));
          (output_html_path,
           Html (make_figure df (List.concat dfs) logo))].
Proof.
  unfold run, main. destruct fetched as [raw|e].
  - unfold bind at 1 2. cbn [print lift].
    destruct (prepare raw) as [df|e] eqn:Hprep; [|discriminate].
    unfold bind at 1 2. cbn [print].
    destruct (forecast_loop SARIMAX df target_gases [] _)
      as [[out|e] env1] eqn:Hloop; [|discriminate].
    pose proof (forecast_loop_files _ _ _ _ _ _ Hloop) as Hfiles.
    apply forecast_loop_ok in Hloop. destruct Hloop as (dfs & -> & Hall).
    cbn [app]. unfold bind, write_file, print. cbn.
    intros H. inversion H; subst. cbn. rewrite Hfiles. cbn.
    exists raw, df, dfs. auto.
  - cbn. discriminate.
Qed.


End ForecastFacts.

(** ** Months *)

Lemma days_in_month_ge (y m : Z) : 28 <= days_in_month y m.
Proof.
  unfold days_in_month.
  destruct (m =? 2); [destruct (is_leap y); lia|].
  destruct ((m =? 4) || (m =? 6) || (m =? 9) || (m =? 11)); lia.
Qed.

Lemma add_months_ordinal (t : Timestamp) (n : Z) :
  month_ordinal (add_months t n) = month_ordinal t + n.
Proof.
  unfold month_ordinal, add_months. cbn [year month day].
  Z.div_mod_to_equations. lia.
Qed.

Lemma add_months_start (t : Timestamp) (n : Z) :
  day t = 1 -> month_start (add_months t n).
Proof.
  intros Hd. unfold month_start, add_months. cbn [year month day].
  rewrite Hd.
  pose proof (days_in_month_ge (year t + (month t - 1 + n) / 12)
                ((month t - 1 + n) mod 12 + 1)).
  pose proof (Z.mod_pos_bound (month t - 1 + n) 12). lia.
Qed.

Lemma add_months_add (t : Timestamp) (n k : Z) :
  day t = 1 -> add_months (add_months t n) k = add_months t (n + k).
Proof.
  intros Hd.
  destruct (add_months_start t n Hd) as [Hd1 _].
  destruct (add_months_start (add_months t n) k Hd1) as [Hd2 Hm2].
  destruct (add_months_start t (n + k) Hd) as [Hd3 Hm3].
  pose proof (add_months_ordinal (add_months t n) k) as Ho.
  pose proof (add_months_ordinal t n) as Ho1.
  pose proof (add_months_ordinal t (n + k)) as Ho'.
  unfold month_ordinal in Ho, Ho1, Ho'.
  destruct (add_months (add_months t n) k) as [y1 m1 d1].
  destruct (add_months t (n + k)) as [y2 m2 d2].
  cbn [year month day] in *.
  f_equal; lia.
Qed.

Lemma rollforward_MS_start (t : Timestamp) :
  day t = 1 -> rollforward_MS t = t.
Proof. intros Hd. unfold rollforward_MS. rewrite Hd. reflexivity. Qed.

(** The dates [date_range] produces from the month after [last]. *)
Lemma forecast_dates_from_last (last : Timestamp) (n : nat) :
  day last = 1 ->
  map (fun i => add_months (rollforward_MS (add_months last 1)) (Z.of_nat i))
      (seq 0 n)
  = map (fun i => add_months last (1 + Z.of_nat i)) (seq 0 n).
Proof.
  intros Hd. apply map_ext. intros i.
  destruct (add_months_start last 1 Hd) as [Hd1 _].
  rewrite rollforward_MS_start by assumption.
  apply add_months_add. exact Hd.
Qed.

(** *** Order of timestamps *)

Lemma ts_leb_refl (a : Timestamp) : ts_leb a a = true.
Proof.
  unfold ts_leb, ts_compare. rewrite !Z.compare_refl. reflexivity.
Qed.

Lemma ts_leb_trans (a b c : Timestamp) :
  ts_leb a b = true -> ts_leb b c = true -> ts_leb a c = true.
Proof.
  unfold ts_leb, ts_compare.
  destruct (Z.compare_spec (year a) (year b));
    destruct (Z.compare_spec (year b) (year c));
    destruct (Z.compare_spec (year a) (year c)); try lia;
    try discriminate; try reflexivity;
    destruct (Z.compare_spec (month a) (month b));
    destruct (Z.compare_spec (month b) (month c));
    destruct (Z.compare_spec (month a) (month c)); try lia;
    try discriminate; try reflexivity;
    destruct (Z.compare_spec (day a) (day b));
    destruct (Z.compare_spec (day b) (day c));
    destruct (Z.compare_spec (day a) (day c)); try lia;
    try discriminate; try reflexivity.
Qed.

Lemma ts_leb_total (a b : Timestamp) :
  ts_leb a b = false -> ts_leb b a = true.
Proof.
  unfold ts_leb, ts_compare.
  destruct (Z.compare_spec (year a) (year b));
    destruct (Z.compare_spec (year b) (year a)); try lia;
    try discriminate; try reflexivity;
    destruct (Z.compare_spec (month a) (month b));
    destruct (Z.compare_spec (month b) (month a)); try lia;
    try discriminate; try reflexivity;
    destruct (Z.compare_spec (day a) (day b));
    destruct (Z.compare_spec (day b) (day a)); try lia;
    try discriminate; try reflexivity.
Qed.

(** [index_max] returns an entry of the index that no entry exceeds. *)
Lemma fold_ts_max (idx : list (option Timestamp)) :
  forall acc m,
    fold_left ts_max idx acc = Some m ->
    (acc = Some m \/ In (Some m) idx)
    /\ (forall a, acc = Some a -> ts_leb a m = true)
    /\ (forall t, In (Some t) idx -> ts_leb t m = true).
Proof.
  induction idx as [|x idx IH]; intros acc m; cbn.
  - intros ->. split; [auto|]. split.
    + intros a Ha. inversion Ha. apply ts_leb_refl.
    + intros t [].
  - intros H. apply IH in H. destruct H as (Hin & Hacc & Hall).
    destruct acc as [a|], x as [b|]; cbn in *.
    + destruct (ts_leb a b) eqn:Hab.
      * split; [destruct Hin as [Hin|Hin]; auto|]. split.
        -- intros a' Ha'. inversion Ha'; subst.
           apply (ts_leb_trans _ b); auto.
        -- intros t [Ht|Ht]; [inversion Ht; subst; auto|auto].
      * split; [destruct Hin as [Hin|Hin]; auto|]. split.
        -- auto.
        -- intros t [Ht|Ht]; [|auto]. inversion Ht; subst.
           apply (ts_leb_trans _ a); auto using ts_leb_total.
    + split; [destruct Hin as [Hin|Hin]; auto|]. split; [auto|].
      intros t [Ht|Ht]; [discriminate|auto].
    + split; [destruct Hin as [Hin|Hin]; auto|]. split; [discriminate|].
      intros t [Ht|Ht]; [inversion Ht; subst; auto|auto].
    + split; [destruct Hin as [Hin|Hin]; auto|]. split; [discriminate|].
      intros t [Ht|Ht]; [discriminate|auto].
Qed.

Lemma index_max_spec (idx : list (option Timestamp)) (m : Timestamp) :
  index_max idx = Some m ->
  In (Some m) idx /\ (forall t, In (Some t) idx -> ts_leb t m = true).
Proof.
  intros H. apply fold_ts_max in H. destruct H as ([H|H] & _ & Hall).
  - discriminate.
  - auto.
Qed.

(** ** Data preparation *)

Lemma month_of_abbr_range (a b c : ascii) (m : Z) :
  month_of_abbr a b c = Some m -> 1 <= m <= 12.
Proof.
  unfold month_of_abbr.
  repeat match goal with
    | |- context [if ?x then _ else _] => destruct x
    end; intros H; inversion H; lia.
Qed.

Lemma strptime_month_start (s : string) (t : Timestamp) :
  strptime_b_Y s = Some t -> month_start t.
Proof.
  unfold strptime_b_Y.
  destruct s as [|a [|b [|c [|dash [|y1 [|y2 [|y3 [|y4 [|? ?]]]]]]]]];
    try discriminate.
  destruct (Ascii.eqb dash "-"); [|discriminate].
  destruct (month_of_abbr a b c) as [m|] eqn:Hm; [|discriminate].
  destruct (digit_of y1), (digit_of y2), (digit_of y3), (digit_of y4);
    try discriminate.
  intros H. inversion H. split; cbn; [reflexivity|].
  exact (month_of_abbr_range _ _ _ _ Hm).
Qed.

Lemma parse_dates_month_start (rs : list RawRow) :
  forall parsed, parse_dates rs = Ok parsed -> index_month_start parsed.
Proof.
  induction rs as [|r rs IH]; intros parsed; cbn.
  - intros H. inversion H. intros r' t [].
  - destruct (to_datetime (raw_date r)) as [t|e] eqn:Ht; [|discriminate].
    destruct (parse_dates rs) as [rows'|e]; [|discriminate].
    intros H. inversion H; subst. intros r' t' [<-|Hin] Hidx.
    + cbn in Hidx. subst t. unfold to_datetime in Ht.
      destruct (raw_date r) as [str|]; [|discriminate].
      destruct (strptime_b_Y str) as [t0|] eqn:Hp; [|discriminate].
      inversion Ht; subst. exact (strptime_month_start _ _ Hp).
    + exact (IH rows' eq_refl r' t' Hin Hidx).
Qed.

Lemma in_insert_row (r x : Row) (rs : list Row) :
  In x (insert_row r rs) <-> x = r \/ In x rs.
Proof.
  induction rs as [|r' rs IH]; cbn.
  - intuition.
  - destruct (index_leb (index r) (index r')); cbn; rewrite ?IH; intuition.
Qed.

Lemma in_sort_index (x : Row) (rs : list Row) :
  In x (sort_index rs) <-> In x rs.
Proof.
  induction rs as [|r rs IH]; cbn; [tauto|].
  rewrite in_insert_row, IH. intuition.
Qed.

Lemma prepare_ok (raw : RawFrame) (df : Frame) :
  prepare raw = Ok df ->
  exists parsed,
    parse_dates (raw_rows raw) = Ok parsed
    /\ df = mkFrame target_gases (dropna target_gases (sort_index parsed)).
Proof.
  unfold prepare.
  destruct (negb (has_column (raw_columns raw) "Date")); [discriminate|].
  destruct (parse_dates (raw_rows raw)) as [parsed|e]; [|discriminate].
  destruct (forallb (has_column (raw_columns raw)) target_gases);
    [|discriminate].
  intros H. inversion H. eauto.
Qed.

Lemma prepare_month_start (raw : RawFrame) (df : Frame) :
  prepare raw = Ok df -> index_month_start (rows df).
Proof.
  intros H. apply prepare_ok in H. destruct H as (parsed & Hp & ->).
  intros r t Hin Hidx. cbn in Hin. unfold dropna in Hin.
  apply filter_In in Hin. destruct Hin as [Hin _].
  apply (proj1 (in_sort_index _ _)) in Hin.
  exact (parse_dates_month_start _ _ Hp r t Hin Hidx).
Qed.

Lemma row_complete_iff (cols : list string) (r : Row) :
  row_complete cols r = true
  <-> forall g, In g cols -> isnan (cells r g) = false.
Proof.
  unfold row_complete. rewrite forallb_forall. split; intros H g Hg.
  - apply H in Hg. destruct (isnan (cells r g)); [discriminate|reflexivity].
  - rewrite (H g Hg). reflexivity.
Qed.

Lemma series_index_column (df : Frame) (gas : string) :
  series_index (column df gas) = map index (rows df).
Proof.
  unfold series_index, column. rewrite map_map. reflexivity.
Qed.

(** C5: after cleaning, a parsed row is kept exactly when none of the four
    target cells is missing on its date, so all four series have the same
    dates (the same index, entry by entry) and none holds a missing value;
    the whole run then works on this one cleaned frame: every fit and the
    chart read their series from it, and the chart's histories share their
    dates too. *)
Theorem cleaned_series_share_dates (raw : RawFrame) (df : Frame) :
  prepare raw = Ok df ->
  (exists parsed,
     parse_dates (raw_rows raw) = Ok parsed
     /\ forall r, In r (rows df)
          <-> In r parsed
              /\ forall g, In g target_gases -> isnan (cells r g) = false)
  /\ (forall g1 g2,
        series_index (column df g1) = series_index (column df g2))
  /\ (forall g t v, In g target_gases -> In (t, v) (column df g) ->
        isnan v = false)
  /\ (forall recs g1 g2,
        series_index
          (historical (make_panel (historical_filtered df) recs g1))
        = series_index
            (historical (make_panel (historical_filtered df) recs g2)))
  /\ (forall SARIMAX logo env,
        run SARIMAX (Ok raw) logo = (Ok tt, env) ->
        exists dfs,
          Forall2 (forecast_gas_spec SARIMAX df) target_gases dfs
          /\ files env
             = [(output_csv_path, Csv (List.concat dfs));
                (output_html_path,
                 Html (make_figure df (List.concat dfs) logo))]).
Proof.
  intros Hprep. pose proof (prepare_ok _ _ Hprep) as (parsed & Hp & Hdf).
  split; [|split; [|split; [|split]]].
  - exists parsed. split; [assumption|]. intros r. subst df. cbn.
    unfold dropna. rewrite filter_In, in_sort_index, row_complete_iff.
    reflexivity.
  - intros g1 g2. rewrite !series_index_column. reflexivity.
  - intros g t v Hg Hin. unfold column in Hin. apply in_map_iff in Hin.
    destruct Hin as (r & Heq & Hr). inversion Heq; subst t v.
    subst df. cbn in Hr. unfold dropna in Hr. apply filter_In in Hr.
    destruct Hr as [_ Hc]. exact (proj1 (row_complete_iff _ _) Hc g Hg).
  - intros recs g1 g2. unfold make_panel. cbn [historical].
    rewrite !series_index_column. reflexivity.
  - intros SARIMAX logo env Hrun. apply run_ok in Hrun.
    destruct Hrun as (raw' & df' & dfs & Hraw & Hprep' & Hall & Hfiles).
    inversion Hraw; subst raw'. rewrite Hprep in Hprep'.
    inversion Hprep'; subst df'. eauto.
Qed.

(** ** The records of one forecast *)

Lemma forecast_dates_length (last : Timestamp) :
  List.length (forecast_dates_of last) = forecast_horizon.
Proof.
  unfold forecast_dates_of. rewrite List.length_map, List.length_seq.
  reflexivity.
Qed.

Lemma start_after_day (last : Timestamp) : day (start_after last) = 1.
Proof.
  unfold start_after, rollforward_MS.
  destruct (day (add_months last 1) =? 1) eqn:Hd.
  - apply Z.eqb_eq. exact Hd.
  - apply add_months_start. reflexivity.
Qed.

Lemma forecast_dates_NoDup (last : Timestamp) :
  NoDup (forecast_dates_of last).
Proof.
  apply (NoDup_map_inv month_ordinal).
  unfold forecast_dates_of. rewrite map_map.
  rewrite (map_ext _ (fun i => month_ordinal (start_after last) + Z.of_nat i))
    by (intros i; apply add_months_ordinal).
  generalize (month_ordinal (start_after last)) as c. intros c.
  generalize (seq_NoDup forecast_horizon 0).
  generalize (seq 0 forecast_horizon) as l.
  induction l as [|i l IH]; intros Hnd; cbn; constructor.
  - inversion Hnd as [|? ? Hnotin _]; subst. intros Hin.
    apply in_map_iff in Hin. destruct Hin as (j & Heq & Hj).
    cbn beta in Heq. assert (j = i) by lia. subst j. contradiction.
  - apply IH. inversion Hnd. assumption.
Qed.

(** The columns of the records of a successful pass. *)
Lemma forecast_records_columns (gas : string) (last : Timestamp)
    (fc : Prediction) :
  List.length (predicted_mean fc) = forecast_horizon ->
  List.length (conf_int fc default_alpha) = forecast_horizon ->
  let recs :=
    zip_records gas (forecast_dates_of last) (predicted_mean fc)
      (map fst (conf_int fc default_alpha))
      (map snd (conf_int fc default_alpha)) in
  map Date recs = forecast_dates_of last
  /\ map Forecast recs = predicted_mean fc
  /\ map (fun r => (Lower_CI r, Upper_CI r)) recs
     = conf_int fc default_alpha
  /\ Forall (fun r => Gas r = gas) recs
  /\ List.length recs = forecast_horizon.
Proof.
  intros Hm Hc recs.
  destruct (zip_records_spec gas (forecast_dates_of last) (predicted_mean fc)
              (map fst (conf_int fc default_alpha))
              (map snd (conf_int fc default_alpha)))
    as (Hd & Hf & Hl & Hu & Hg).
  - rewrite forecast_dates_length. exact Hm.
  - rewrite List.length_map, forecast_dates_length. exact Hc.
  - rewrite List.length_map, forecast_dates_length. exact Hc.
  - fold recs in Hd, Hf, Hl, Hu, Hg.
    split; [exact Hd|]. split; [exact Hf|]. split; [|split; [exact Hg|]].
    + clear Hd Hf Hg. revert Hl Hu.
      generalize (conf_int fc default_alpha) as ci. generalize recs as rs.
      induction rs as [|r rs IH]; intros [|[lo hi] ci]; cbn;
        try discriminate; [reflexivity|].
      intros Hl Hu. inversion Hl. inversion Hu. subst.
      f_equal. apply IH; assumption.
    + rewrite <- (List.length_map Date), Hd. apply forecast_dates_length.
Qed.

Section ForecastTheorems.

Variable SARIMAX : fitter.

(** C6: a series that is forecast yields exactly six records, the
    configured horizon, all for that series and for six different months;
    each record holds one point estimate, one lower and one upper bound:
    the six means and the six rows of the interval table, in order. *)
Theorem forecast_gas_six_records (df : Frame) (gas : string) (env env' : Env)
    (recs : list ForecastRecord) :
  forecast_gas SARIMAX df gas env = (Ok recs, env') ->
  forecast_horizon = 6%nat
  /\ List.length recs = forecast_horizon
  /\ Forall (fun r => Gas r = gas) recs
  /\ NoDup (map Date recs)
  /\ exists results forecast,
       SARIMAX (column df gas)
         (fst (script_search SARIMAX (column df gas)))
         (snd (script_search SARIMAX (column df gas))) false false
       = Ok results
       /\ get_forecast results forecast_horizon = Ok forecast
       /\ map Forecast recs = predicted_mean forecast
       /\ map (fun r => (Lower_CI r, Upper_CI r)) recs
          = conf_int forecast default_alpha.
Proof.
  intros H. apply forecast_gas_ok in H. destruct H as [Hspec _].
  destruct Hspec as [r fc last Hfit Hget Hmax Hm Hc ->].
  destruct (forecast_records_columns gas last fc Hm Hc)
    as (Hd & Hf & Hb & Hg & Hlen).
  fold (start_after last). fold (forecast_dates_of last).
  split; [reflexivity|]. split; [exact Hlen|]. split; [exact Hg|].
  split; [rewrite Hd; apply forecast_dates_NoDup|].
  exists r, fc. auto.
Qed.

(** C7: the dates of a forecast are the six months that follow the last
    date of the series, one after the other: the first is one month after
    that last date, each next one a month later, all on the first day of
    their month. *)
Theorem forecast_dates_contiguous (raw : RawFrame) (df : Frame)
    (gas : string) (env env' : Env) (recs : list ForecastRecord) :
  prepare raw = Ok df ->
  forecast_gas SARIMAX df gas env = (Ok recs, env') ->
  exists last,
    index_max (series_index (column df gas)) = Some last
    /\ In (Some last) (series_index (column df gas))
    /\ (forall t, In (Some t) (series_index (column df gas)) ->
          ts_leb t last = true)
    /\ map Date recs
       = map (fun i => add_months last (1 + Z.of_nat i))
           (seq 0 forecast_horizon)
    /\ (forall i t, nth_error (map Date recs) i = Some t ->
          month_start t
          /\ month_ordinal t = month_ordinal last + 1 + Z.of_nat i).
Proof.
  intros Hprep H. apply forecast_gas_ok in H. destruct H as [Hspec _].
  destruct Hspec as [r fc last Hfit Hget Hmax Hm Hc ->].
  destruct (forecast_records_columns gas last fc Hm Hc) as (Hd & _).
  fold (start_after last). fold (forecast_dates_of last).
  destruct (index_max_spec _ _ Hmax) as [Hin Hle].
  assert (Hday : day last = 1).
  { rewrite series_index_column in Hin. apply in_map_iff in Hin.
    destruct Hin as (row & Hidx & Hrow).
    exact (proj1 (prepare_month_start _ _ Hprep row last Hrow Hidx)). }
  assert (Hdates : forecast_dates_of last
                   = map (fun i => add_months last (1 + Z.of_nat i))
                       (seq 0 forecast_horizon)).
  { apply forecast_dates_from_last. exact Hday. }
  exists last. split; [exact Hmax|]. split; [exact Hin|].
  split; [exact Hle|]. split; [rewrite Hd; exact Hdates|].
  intros i t Hnth. rewrite Hd, Hdates in Hnth.
  rewrite nth_error_map in Hnth.
  destruct (nth_error (seq 0 forecast_horizon) i) as [j|] eqn:Hj;
    [|discriminate].
  cbn [option_map] in Hnth.
  assert (Ht : add_months last (1 + Z.of_nat j) = t) by congruence.
  subst t. clear Hnth.
  assert (j = i).
  { pose proof (nth_error_nth _ _ 0%nat Hj) as Hn.
    assert (Hlt : (i < forecast_horizon)%nat).
    { rewrite <- (List.length_seq forecast_horizon 0).
      apply nth_error_Some. congruence. }
    rewrite seq_nth in Hn by assumption. lia. }
  subst j. split.
  - apply add_months_start. exact Hday.
  - rewrite add_months_ordinal. lia.
Qed.

End ForecastTheorems.

(** ** The interval of a record *)



Section RunTheorems.

Variable SARIMAX : fitter.


Lemma search_none (ts : Series) :
  (forall c, In c script_candidates -> score SARIMAX ts c = None) ->
  script_search SARIMAX ts = (None, None).
Proof.
  intros Hnone.
  destruct (search_result_cases SARIMAX ts Grid.p Grid.d Grid.q Grid.P Grid.D
              Grid.Q Grid.s)
    as [[H1 _]|(i & c & a & _ & (Hn & Hs & _) & _)].
  - exact H1.
  - apply nth_error_In in Hn. rewrite (Hnone c Hn) in Hs. discriminate.
Qed.

Lemma forecast_gas_search_failure (df : Frame) (gas : string) (e : exn)
    (env : Env) :
  (forall c, In c script_candidates ->
     score SARIMAX (column df gas) c = None) ->
  SARIMAX (column df gas) None None false false = Raise e ->
  forecast_gas SARIMAX df gas env
  = (Raise e, mkEnv (stdout env ++ [progress_line gas]) (files env)).
Proof.
  intros Hnone Hraise. apply search_none in Hnone.
  unfold forecast_gas, script_search in *. unfold bind, print, lift.
  rewrite Hnone, Hraise. reflexivity.
Qed.


(** C3 (amended): the script has no check for an empty series.  The search
    discards whatever a candidate fit raises, so a series left empty by the
    cleaning on which every fit raises gives the same no-result as a series
    on which every fit fails numerically; the pass then ends with whatever
    the final fit with absent orders raises, and the two passes end alike
    when that exception is the same. *)
Theorem search_failures_surface_alike (df_empty df : Frame) (gas : string)
    (e : exn) (env : Env) :
  rows df_empty = [] ->
  (forall c, In c script_candidates -> score SARIMAX [] c = None) ->
  (forall c, In c script_candidates ->
     score SARIMAX (column df gas) c = None) ->
  SARIMAX [] None None false false = Raise e ->
  SARIMAX (column df gas) None None false false = Raise e ->
  script_search SARIMAX (column df_empty gas) = (None, None)
  /\ script_search SARIMAX (column df gas) = (None, None)
  /\ forecast_gas SARIMAX df_empty gas env
     = (Raise e, mkEnv (stdout env ++ [progress_line gas]) (files env))
  /\ forecast_gas SARIMAX df_empty gas env = forecast_gas SARIMAX df gas env.
Proof.
  intros Hrows Hnone0 Hnone He0 He.
  assert (Hcol : column df_empty gas = []).
  { unfold column. rewrite Hrows. reflexivity. }
  rewrite <- Hcol in Hnone0, He0.
  pose proof (forecast_gas_search_failure df_empty gas e env Hnone0 He0) as H0.
  pose proof (forecast_gas_search_failure df gas e env Hnone He) as H1.
  split; [exact (search_none _ Hnone0)|].
  split; [exact (search_none _ Hnone)|].
  split; [exact H0|]. rewrite H0, H1. reflexivity.
Qed.

End RunTheorems.

(** ** Failure of the load *)

Lemma parse_dates_bad (rs : list RawRow) :
  (exists r s, In r rs /\ raw_date r = Some s /\ strptime_b_Y s = None) ->
  exists e, parse_dates rs = Raise e.
Proof.
  induction rs as [|r0 rs IH]; intros (r & s & Hin & Hd & Hp).
  - destruct Hin.
  - cbn. destruct (to_datetime (raw_date r0)) as [t|e] eqn:Ht; [|eauto].
    destruct Hin as [->|Hin].
    + unfold to_datetime in Ht. rewrite Hd, Hp in Ht. discriminate.
    + destruct IH as [e He]; [eauto|]. rewrite He. eauto.
Qed.

Lemma prepare_malformed (raw : RawFrame) :
  malformed raw -> exists e, prepare raw = Raise e.
Proof.
  intros Hbad. unfold prepare.
  destruct (has_column (raw_columns raw) "Date") eqn:Hdate;
    cbn [negb]; [|eexists; reflexivity].
  destruct (parse_dates (raw_rows raw)) as [parsed|e] eqn:Hparse;
    [|eexists; reflexivity].
  destruct (forallb (has_column (raw_columns raw)) target_gases) eqn:Hcols;
    [|eexists; reflexivity].
  exfalso. destruct Hbad as [H|[H|(g & Hg & H)]].
  - congruence.
  - apply parse_dates_bad in H. destruct H as [e He]. congruence.
  - rewrite forallb_forall in Hcols. rewrite (Hcols g Hg) in H. discriminate.
Qed.

Section LoadTheorems.

Variable SARIMAX : fitter.

(** C9: when the fetch raises, the script prints a line carrying the error
    and exits at once; when the table is fetched but malformed, the
    preparation raises and the exception ends the run.  In both cases the
    run stops before the forecasting loop, and neither the CSV file nor the
    HTML file is written. *)
Theorem load_failure_writes_nothing (fetched : result RawFrame)
    (logo : option string) :
  (exists e, fetched = Raise e)
  \/ (exists raw, fetched = Ok raw /\ malformed raw) ->
  exists e' out,
    run SARIMAX fetched logo = (Raise e', mkEnv out [])
    /\ (forall e, fetched = Raise e ->
          e' = SystemExit
          /\ out = [("Error loading data: " ++ exn_msg e)%string])
    /\ (forall raw, fetched = Ok raw ->
          prepare raw = Raise e'
          /\ out = ["Data loaded successfully."%string]).
Proof.
  intros [[e ->]|(raw & -> & Hbad)].
  - exists SystemExit, [("Error loading data: " ++ exn_msg e)%string].
    split; [reflexivity|]. split.
    + intros e0 H. inversion H. auto.
    + intros raw H. discriminate.
  - destruct (prepare_malformed raw Hbad) as [e He].
    exists e, ["Data loaded successfully."%string].
    split; [|split].
    + unfold run, main. unfold bind at 1 2. cbn [print lift].
      rewrite He. reflexivity.
    + intros e0 H. discriminate.
    + intros raw0 H. inversion H; subst. auto.
Qed.

End LoadTheorems.

(** ** The theorems at the sample table *)

Lemma prepare_sample : prepare sample_raw = Ok sample_clean.
Proof. reflexivity. Qed.

Lemma forecast_gas_sample :
  forecast_gas fit_sample sample_clean co2 empty_env
  = (Ok sample_co2_records, mkEnv [progress_line co2] []).
Proof. vm_compute. reflexivity. Qed.

Lemma fit_failing_no_score (ts : Series) (c : candidate) :
  score fit_failing ts c = None.
Proof. unfold score, fit_failing. destruct ts; reflexivity. Qed.




Lemma run_sample :
  exists env, run fit_sample (Ok sample_raw) None = (Ok tt, env).
Proof. eexists. vm_compute. reflexivity. Qed.


(** C3, as stated, fails: with a table whose SF6 column is missing
    throughout, every series is empty after cleaning; the candidate fits
    then raise another error than on the complete table, yet the two runs
    end with the same exception, the same lines printed and no file. *)
Lemma empty_series_counterexample :
  (exists df, prepare sample_raw_missing = Ok df /\ rows df = [])
  /\ fit_failing [] (Some (0, 0, 0)) (Some (0, 0, 0, 12)) false false
     = Raise (ValueError "zero-size array")
  /\ fit_failing (column sample_clean co2) (Some (0, 0, 0))
       (Some (0, 0, 0, 12)) false false
     = Raise (LinAlgError "Singular matrix")
  /\ run fit_failing (Ok sample_raw_missing) None
     = run fit_failing (Ok sample_raw) None.
Proof.
  split; [eexists; split; reflexivity|].
  split; [reflexivity|]. split; [reflexivity|].
  vm_compute. reflexivity.
Qed.

(** C3 (amended) at an empty frame and the sample frame. *)
Lemma search_failures_surface_alike_witness :
  forecast_gas fit_failing (mkFrame target_gases []) co2 empty_env
  = forecast_gas fit_failing sample_clean co2 empty_env.
Proof.
  apply (search_failures_surface_alike fit_failing (mkFrame target_gases [])
           sample_clean co2
           (TypeError "'NoneType' object is not subscriptable") empty_env
           eq_refl
           (fun c _ => fit_failing_no_score _ c)
           (fun c _ => fit_failing_no_score _ c)
           eq_refl eq_refl).
Defined.

(** C5 at the sample table: November, whose CH4 cell is missing, is gone
    from every series. *)
Lemma cleaned_series_share_dates_witness :
  series_index (column sample_clean co2)
  = [Some (mkTs 2024 9 1); Some (mkTs 2024 10 1); Some (mkTs 2024 12 1)]
  /\ forall g, series_index (column sample_clean co2)
               = series_index (column sample_clean g).
Proof.
  split; [reflexivity|]. intros g.
  apply (cleaned_series_share_dates sample_raw sample_clean prepare_sample).
Defined.

(** C6 at the sample table. *)
Lemma forecast_gas_six_records_witness :
  List.length sample_co2_records = 6%nat
  /\ NoDup (map Date sample_co2_records).
Proof.
  destruct (forecast_gas_six_records fit_sample sample_clean co2 empty_env
              _ sample_co2_records forecast_gas_sample)
    as (_ & Hlen & _ & Hnd & _).
  split; [exact Hlen | exact Hnd].
Defined.

(** C7 at the sample table: the last date is December 2024, the forecast
    runs from January to June 2025. *)
Lemma forecast_dates_contiguous_witness :
  exists last,
    index_max (series_index (column sample_clean co2)) = Some last
    /\ map Date sample_co2_records
       = map (fun i => add_months last (1 + Z.of_nat i))
           (seq 0 forecast_horizon).
Proof.
  destruct (forecast_dates_contiguous fit_sample sample_raw sample_clean co2
              empty_env _ sample_co2_records prepare_sample
              forecast_gas_sample)
    as (last & Hmax & _ & _ & Hdates & _).
  exists last. split; [exact Hmax | exact Hdates].
Defined.


(** C9 at a fetch that raises and at a table with a malformed date. *)
Lemma load_failure_writes_nothing_witness :
  (exists e' out,
     run fit_sample (Raise (mkExn "URLError" "unreachable")) None
     = (Raise e', mkEnv out []))
  /\ (exists e' out,
        run fit_sample (Ok sample_raw_bad_date) None
        = (Raise e', mkEnv out [])).
Proof.
  split.
  - destruct (load_failure_writes_nothing fit_sample
                (Raise (mkExn "URLError" "unreachable")) None)
      as (e' & out & Hrun & _).
    + left. eexists. reflexivity.
    + exists e', out. exact Hrun.
  - destruct (load_failure_writes_nothing fit_sample
                (Ok sample_raw_bad_date) None)
      as (e' & out & Hrun & _).
    + right. exists sample_raw_bad_date. split; [reflexivity|].
      right. left. eexists. eexists.
      split; [left; reflexivity|]. split; reflexivity.
    + exists e', out. exact Hrun.
Defined.

(** * Further properties *)

(** ** The order search on its grid *)

Lemma leb_of_not_ltb (a b : float) :
  isnan a = false -> isnan b = false -> ltb b a = false -> leb a b = true.
Proof.
  intros Ha Hb Hlt. destruct (leb a b) eqn:Hle; [reflexivity|]. exfalso.
  assert (H1 : ~ lex_lt (key b) (key a)).
  { intros H. apply (ltb_key b a Hb Ha) in H. congruence. }
  assert (H2 : ~ lex_le (key a) (key b)).
  { intros H. apply (leb_key a b Ha Hb) in H. congruence. }
  unfold lex_lt, lex_le in *.
  destruct (key a) as [[a1 a2] a3], (key b) as [[b1 b2] b3]. lia.
Qed.

Lemma candidates_same_elements (p p' d d' q q' sP sP' sD sD' sQ sQ' : list Z)
    (s : Z) :
  same_elements p p' -> same_elements d d' -> same_elements q q' ->
  same_elements sP sP' -> same_elements sD sD' -> same_elements sQ sQ' ->
  forall c, In c (candidates p d q sP sD sQ s)
            <-> In c (candidates p' d' q' sP' sD' sQ' s).
Proof.
  intros Hp Hd Hq HP HD HQ [[[a b] c] [[[e f] g] s']].
  rewrite !in_candidates.
  rewrite (Hp a), (Hd b), (Hq c), (HP e), (HD f), (HQ g). reflexivity.
Qed.

(** X1: the orders the search returns are taken from the ranges it was
    given, component by component, and the seasonal order ends with the
    period it was given. *)
Theorem optimize_sarima_within_grid (SARIMAX : fitter) (ts : Series)
    (p d q sP sD sQ : list Z) (s : Z) (p0 d0 q0 P0 D0 Q0 s0 : Z) :
  optimize_sarima SARIMAX ts p d q sP sD sQ s
  = (Some (p0, d0, q0), Some (P0, D0, Q0, s0)) ->
  In p0 p /\ In d0 d /\ In q0 q /\ In P0 sP /\ In D0 sD /\ In Q0 sQ
  /\ s0 = s.
Proof.
  intros Hfound.
  destruct (search_result_cases SARIMAX ts p d q sP sD sQ s)
    as [[H1 _]|(i & c & a & H1 & (Hn & _) & _)].
  - rewrite H1 in Hfound. discriminate.
  - rewrite H1 in Hfound. apply nth_error_In in Hn.
    destruct c as [o so]. cbn [fst snd] in Hfound.
    inversion Hfound; subst. apply in_candidates in Hn. exact Hn.
Qed.

(** X2: when one of the six ranges is empty there is no candidate, and the
    search returns no order pair whatever the fitting primitive would do. *)
Theorem optimize_sarima_empty_range (SARIMAX : fitter) (ts : Series)
    (p d q sP sD sQ : list Z) (s : Z) :
  p = [] \/ d = [] \/ q = [] \/ sP = [] \/ sD = [] \/ sQ = [] ->
  candidates p d q sP sD sQ s = []
  /\ optimize_sarima SARIMAX ts p d q sP sD sQ s = (None, None).
Proof.
  intros Hempty.
  assert (Hnil : candidates p d q sP sD sQ s = []).
  { apply length_zero_iff_nil. rewrite length_candidates.
    destruct Hempty as [-> | [-> | [-> | [-> | [-> | ->]]]]];
      cbn [List.length]; lia. }
  split; [exact Hnil|].
  unfold optimize_sarima. rewrite search_loop_flat.
  fold (candidates p d q sP sD sQ s). rewrite Hnil. reflexivity.
Qed.

(** X3: the result of the search does not depend on the order of the
    values in the ranges, nor on their repetition, as long as no two
    different candidates have equal scores. *)
Theorem optimize_sarima_order_independent (SARIMAX : fitter) (ts : Series)
    (p p' d d' q q' sP sP' sD sD' sQ sQ' : list Z) (s : Z) :
  same_elements p p' -> same_elements d d' -> same_elements q q' ->
  same_elements sP sP' -> same_elements sD sD' -> same_elements sQ sQ' ->
  no_ties SARIMAX ts (candidates p d q sP sD sQ s) ->
  optimize_sarima SARIMAX ts p d q sP sD sQ s
  = optimize_sarima SARIMAX ts p' d' q' sP' sD' sQ' s.
Proof.
  intros Hp Hd Hq HP HD HQ Hties.
  pose proof (candidates_same_elements _ _ _ _ _ _ _ _ _ _ _ _ s
                Hp Hd Hq HP HD HQ) as Hsame.
  destruct (search_result_cases SARIMAX ts p d q sP sD sQ s)
    as [[H1 Hall1]|(i1 & c1 & a1 & H1 & (Hn1 & Hs1 & Hlow1 & _) & Hlt1)];
    destruct (search_result_cases SARIMAX ts p' d' q' sP' sD' sQ' s)
      as [[H2 Hall2]|(i2 & c2 & a2 & H2 & (Hn2 & Hs2 & Hlow2 & _) & Hlt2)];
    rewrite H1, H2.
  - reflexivity.
  - exfalso. apply nth_error_In in Hn2. apply Hsame in Hn2.
    rewrite (Hall1 c2 a2 Hn2 Hs2) in Hlt2. discriminate.
  - exfalso. apply nth_error_In in Hn1. apply Hsame in Hn1.
    rewrite (Hall2 c1 a1 Hn1 Hs1) in Hlt1. discriminate.
  - apply nth_error_In in Hn1, Hn2.
    pose proof (proj1 (Hsame c1) Hn1) as Hn1'.
    pose proof (proj2 (Hsame c2) Hn2) as Hn2'.
    apply ltb_inf_iff in Hlt1, Hlt2.
    destruct Hlt1 as [Hnan1 _], Hlt2 as [Hnan2 _].
    assert (Heq : c1 = c2).
    { apply (Hties c1 c2 a1 a2 Hn1 Hn2' Hs1 Hs2).
      - apply leb_of_not_ltb; try assumption. exact (Hlow1 c2 a2 Hn2' Hs2).
      - apply leb_of_not_ltb; try assumption. exact (Hlow2 c1 a1 Hn1' Hs1). }
    rewrite Heq. reflexivity.
Qed.

(** X1 at the sample fit: the order found on the script's grid. *)
Lemma optimize_sarima_within_grid_witness :
  In 1 Grid.p /\ In 0 Grid.d /\ In 0 Grid.q /\ In 0 Grid.P /\ In 0 Grid.D
  /\ In 0 Grid.Q /\ 12 = Grid.s.
Proof.
  apply (optimize_sarima_within_grid fit_sample sample_series
           Grid.p Grid.d Grid.q Grid.P Grid.D Grid.Q Grid.s).
  vm_compute. reflexivity.
Defined.

(** X2 with an empty range of seasonal differencing orders. *)
Lemma optimize_sarima_empty_range_witness :
  optimize_sarima fit_sample sample_series Grid.p Grid.d Grid.q Grid.P []
    Grid.Q Grid.s
  = (None, None).
Proof.
  apply (optimize_sarima_empty_range fit_sample sample_series
           Grid.p Grid.d Grid.q Grid.P [] Grid.Q Grid.s).
  right. right. right. right. left. reflexivity.
Defined.

Lemma same_elements_refl (l : list Z) : same_elements l l.
Proof. intros x. reflexivity. Qed.

(** X3 with the autoregressive range given as 0, 1 and as 1, 0, 1. *)
Lemma optimize_sarima_order_independent_witness :
  optimize_sarima fit_sample sample_series [0; 1] [0] [0] [0] [0] [0] 12
  = optimize_sarima fit_sample sample_series [1; 0; 1] [0] [0] [0] [0] [0] 12.
Proof.
  apply optimize_sarima_order_independent;
    try apply same_elements_refl.
  - intros x. cbn. tauto.
  - intros c c' a b Hc Hc' Ha Hb Hab Hba. cbn in Hc, Hc'.
    destruct Hc as [<-|[<-|[]]], Hc' as [<-|[<-|[]]];
      try reflexivity; exfalso;
      cbn in Ha, Hb; inversion Ha; inversion Hb; subst;
      vm_compute in Hab; vm_compute in Hba; discriminate.
Defined.

(** ** The prepared frame *)

Lemma index_leb_trans (a b c : option Timestamp) :
  index_leb a b = true -> index_leb b c = true -> index_leb a c = true.
Proof.
  destruct a as [a|], b as [b|], c as [c|]; cbn; try discriminate; auto.
  apply ts_leb_trans.
Qed.

Lemma index_leb_total (a b : option Timestamp) :
  index_leb a b = false -> index_leb b a = true.
Proof.
  destruct a as [a|], b as [b|]; cbn; try discriminate; auto.
  apply ts_leb_total.
Qed.

Lemma insert_row_perm (r : Row) (rs : list Row) :
  Permutation (insert_row r rs) (r :: rs).
Proof.
  induction rs as [|r' rs IH]; cbn; [reflexivity|].
  destruct (index_leb (index r) (index r')); [reflexivity|].
  rewrite IH. apply perm_swap.
Qed.

Lemma sort_index_perm (rs : list Row) : Permutation (sort_index rs) rs.
Proof.
  induction rs as [|r rs IH]; cbn; [reflexivity|].
  rewrite insert_row_perm. constructor. exact IH.
Qed.

Lemma insert_row_sorted (r : Row) (rs : list Row) :
  StronglySorted row_le rs -> StronglySorted row_le (insert_row r rs).
Proof.
  induction rs as [|r' rs IH]; intros Hs; cbn.
  - constructor; constructor.
  - inversion Hs as [|? ? Hs' Hall]; subst.
    destruct (index_leb (index r) (index r')) eqn:Hle.
    + constructor; [exact Hs|]. constructor; [exact Hle|].
      eapply Forall_impl; [|exact Hall].
      intros x Hx. exact (index_leb_trans _ _ _ Hle Hx).
    + constructor; [exact (IH Hs')|].
      apply (Permutation_Forall (x := r :: rs)).
      * symmetry. apply insert_row_perm.
      * constructor; [exact (index_leb_total _ _ Hle) | exact Hall].
Qed.

Lemma sort_index_sorted (rs : list Row) :
  StronglySorted row_le (sort_index rs).
Proof.
  induction rs as [|r rs IH]; cbn; [constructor|].
  apply insert_row_sorted. exact IH.
Qed.

Lemma filter_perm {A : Type} (f : A -> bool) (l l' : list A) :
  Permutation l l' -> Permutation (filter f l) (filter f l').
Proof.
  induction 1 as [|x l l' _ IH|x y l|l l' l'' _ IH1 _ IH2]; cbn.
  - constructor.
  - destruct (f x); [constructor|]; exact IH.
  - destruct (f x), (f y); try reflexivity. apply perm_swap.
  - exact (perm_trans IH1 IH2).
Qed.

Lemma filter_sorted {A : Type} (R : A -> A -> Prop) (f : A -> bool)
    (l : list A) :
  StronglySorted R l -> StronglySorted R (filter f l).
Proof.
  induction 1 as [|x l _ IH Hall]; cbn; [constructor|].
  destruct (f x); [|exact IH]. constructor; [exact IH|].
  apply Forall_forall. intros y Hy. apply filter_In in Hy.
  exact (proj1 (Forall_forall _ _) Hall y (proj1 Hy)).
Qed.

(** X4: the prepared frame holds the rows of the table that are complete in
    the four target columns, each exactly as often as in the table, with
    their cells unchanged and their dates parsed, in ascending order of
    date with the rows without a date last; its columns are the four
    targets. *)
Theorem prepare_sorted_complete_rows (raw : RawFrame) (df : Frame) :
  prepare raw = Ok df ->
  exists parsed,
    Forall2 (fun r row => to_datetime (raw_date r) = Ok (index row)
                          /\ cells row = raw_cells r)
      (raw_rows raw) parsed
    /\ Permutation (rows df) (filter (row_complete target_gases) parsed)
    /\ StronglySorted row_le (rows df)
    /\ columns df = target_gases.
Proof.
  intros H. apply prepare_ok in H. destruct H as (parsed & Hp & ->).
  exists parsed. cbn [rows columns]. split; [|split; [|split]].
  - clear -Hp. revert parsed Hp.
    induction (raw_rows raw) as [|r rs IH]; intros parsed; cbn.
    + intros H. inversion H. constructor.
    + destruct (to_datetime (raw_date r)) as [t|e] eqn:Ht; [|discriminate].
      destruct (parse_dates rs) as [rows'|e]; [|discriminate].
      intros H. inversion H; subst. constructor; [|exact (IH rows' eq_refl)].
      split; [exact Ht | reflexivity].
  - unfold dropna. apply filter_perm. apply sort_index_perm.
  - unfold dropna. apply filter_sorted. apply sort_index_sorted.
  - reflexivity.
Qed.



(** X4 at the sample table. *)
Lemma prepare_sorted_complete_rows_witness :
  StronglySorted row_le (rows sample_clean)
  /\ columns sample_clean = target_gases.
Proof.
  destruct (prepare_sorted_complete_rows sample_raw sample_clean
              prepare_sample) as (parsed & _ & _ & Hsorted & Hcols).
  split; [exact Hsorted | exact Hcols].
Defined.


(** ** The output of the loop *)

Lemma gas_rows_app (g : string) (l l' : list ForecastRecord) :
  gas_rows g (l ++ l') = gas_rows g l ++ gas_rows g l'.
Proof. unfold gas_rows. apply filter_app. Qed.

Lemma gas_rows_same (g : string) (rs : list ForecastRecord) :
  Forall (fun r => Gas r = g) rs -> gas_rows g rs = rs.
Proof.
  induction 1 as [|r rs Hr _ IH]; cbn; [reflexivity|].
  rewrite Hr, String.eqb_refl. f_equal. exact IH.
Qed.

Lemma gas_rows_other (g g' : string) (rs : list ForecastRecord) :
  String.eqb g' g = false ->
  Forall (fun r => Gas r = g') rs -> gas_rows g rs = [].
Proof.
  intros Hne. induction 1 as [|r rs Hr _ IH]; cbn; [reflexivity|].
  rewrite Hr, Hne. exact IH.
Qed.

Lemma forecast_gas_spec_block (SARIMAX : fitter) (df : Frame) (gas : string)
    (rs : list ForecastRecord) :
  forecast_gas_spec SARIMAX df gas rs ->
  Forall (fun r => Gas r = gas) rs /\ List.length rs = forecast_horizon.
Proof.
  intros [r fc last Hfit Hget Hmax Hm Hc ->].
  destruct (forecast_records_columns gas last fc Hm Hc)
    as (_ & _ & _ & Hg & Hlen).
  split; [exact Hg | exact Hlen].
Qed.

(** The blocks of the four passes in the concatenated table. *)
Lemma gas_rows_of_blocks (dfs : list (list ForecastRecord)) :
  Forall2 (fun g rs => Forall (fun r => Gas r = g) rs) target_gases dfs ->
  Forall2 (fun g rs => gas_rows g (List.concat dfs) = rs) target_gases dfs.
Proof.
  unfold target_gases. intros H.
  inversion H as [|g1 r1 gs1 ds1 H1 T1]; subst.
  inversion T1 as [|g2 r2 gs2 ds2 H2 T2]; subst.
  inversion T2 as [|g3 r3 gs3 ds3 H3 T3]; subst.
  inversion T3 as [|g4 r4 gs4 ds4 H4 T4]; subst.
  inversion T4; subst. cbn [List.concat]. rewrite app_nil_r.
  assert (E1 : gas_rows "CO2_seasonal" (r1 ++ r2 ++ r3 ++ r4) = r1).
  { rewrite !gas_rows_app, (gas_rows_same _ _ H1),
      (gas_rows_other "CO2_seasonal" "CH4_seasonal" _ eq_refl H2),
      (gas_rows_other "CO2_seasonal" "N2O_seasonal" _ eq_refl H3),
      (gas_rows_other "CO2_seasonal" "SF6_seasonal" _ eq_refl H4).
    rewrite ?app_nil_r. reflexivity. }
  assert (E2 : gas_rows "CH4_seasonal" (r1 ++ r2 ++ r3 ++ r4) = r2).
  { rewrite !gas_rows_app, (gas_rows_same _ _ H2),
      (gas_rows_other "CH4_seasonal" "CO2_seasonal" _ eq_refl H1),
      (gas_rows_other "CH4_seasonal" "N2O_seasonal" _ eq_refl H3),
      (gas_rows_other "CH4_seasonal" "SF6_seasonal" _ eq_refl H4).
    rewrite ?app_nil_r. reflexivity. }
  assert (E3 : gas_rows "N2O_seasonal" (r1 ++ r2 ++ r3 ++ r4) = r3).
  { rewrite !gas_rows_app, (gas_rows_same _ _ H3),
      (gas_rows_other "N2O_seasonal" "CO2_seasonal" _ eq_refl H1),
      (gas_rows_other "N2O_seasonal" "CH4_seasonal" _ eq_refl H2),
      (gas_rows_other "N2O_seasonal" "SF6_seasonal" _ eq_refl H4).
    rewrite ?app_nil_r. reflexivity. }
  assert (E4 : gas_rows "SF6_seasonal" (r1 ++ r2 ++ r3 ++ r4) = r4).
  { rewrite !gas_rows_app, (gas_rows_same _ _ H4),
      (gas_rows_other "SF6_seasonal" "CO2_seasonal" _ eq_refl H1),
      (gas_rows_other "SF6_seasonal" "CH4_seasonal" _ eq_refl H2),
      (gas_rows_other "SF6_seasonal" "N2O_seasonal" _ eq_refl H3).
    rewrite ?app_nil_r. reflexivity. }
  constructor; [exact E1|]. constructor; [exact E2|].
  constructor; [exact E3|]. constructor; [exact E4|]. constructor.
Qed.

Section OutputTheorems.

Variable SARIMAX : fitter.

Lemma run_blocks (fetched : result RawFrame) (logo : option string)
    (env : Env) :
  run SARIMAX fetched logo = (Ok tt, env) ->
  exists df dfs,
    files env
    = [(output_csv_path, Csv (List.concat dfs));
       (output_html_path, Html (make_figure df (List.concat dfs) logo))]
    /\ Forall2 (fun g rs =>
                  gas_rows g (List.concat dfs) = rs
                  /\ Forall (fun r => Gas r = g) rs
                  /\ List.length rs = forecast_horizon)
         target_gases dfs.
Proof.
  intros Hrun. apply run_ok in Hrun.
  destruct Hrun as (raw & df & dfs & _ & _ & Hall & Hfiles).
  exists df, dfs. split; [exact Hfiles|].
  assert (Hblocks : Forall2 (fun g rs => Forall (fun r => Gas r = g) rs
                                         /\ List.length rs = forecast_horizon)
                      target_gases dfs).
  { clear Hfiles. induction Hall as [|g rs gs ds Hspec _ IH]; constructor;
      [|exact IH].
    exact (forecast_gas_spec_block _ _ _ _ Hspec). }
  assert (Hrows : Forall2 (fun g rs => gas_rows g (List.concat dfs) = rs)
                    target_gases dfs).
  { apply gas_rows_of_blocks.
    eapply Forall2_impl; [|exact Hblocks]. intros g rs [Hg _]. exact Hg. }
  clear Hall Hfiles. revert Hrows.
  generalize (List.concat dfs) as recs. intros recs Hrows.
  induction Hblocks as [|g rs gs ds [Hg Hlen] _ IH];
    inversion Hrows; subst; constructor; auto.
Qed.

(** X6: the CSV of a run that ends normally holds 24 records: the six of
    each gas, one gas after the other in the order of [target_gases];
    selecting the rows of a gas by its name gives back exactly the six
    records of its pass, and no record names another gas. *)
Theorem csv_grouped_by_gas (fetched : result RawFrame)
    (logo : option string) (env : Env) :
  run SARIMAX fetched logo = (Ok tt, env) ->
  exists recs fig dfs,
    files env = [(output_csv_path, Csv recs); (output_html_path, Html fig)]
    /\ recs = List.concat dfs
    /\ Forall2 (fun g rs =>
                  gas_rows g recs = rs
                  /\ Forall (fun r => Gas r = g) rs
                  /\ List.length rs = 6%nat)
         target_gases dfs
    /\ List.length recs = 24%nat
    /\ map Gas recs = flat_map (fun g => repeat g 6) target_gases.
Proof.
  intros Hrun. destruct (run_blocks _ _ _ Hrun) as (df & dfs & Hfiles & Hall).
  exists (List.concat dfs), (make_figure df (List.concat dfs) logo), dfs.
  split; [exact Hfiles|]. split; [reflexivity|]. split; [exact Hall|].
  assert (Hgas : Forall2 (fun g rs => map Gas rs = repeat g 6)
                   target_gases dfs).
  { clear Hfiles. revert Hall. generalize (List.concat dfs) as recs.
    intros recs Hall.
    induction Hall as [|g rs gs ds (_ & Hg & Hlen) _ IH]; constructor;
      [|exact IH].
    change 6%nat with forecast_horizon. rewrite <- Hlen. clear Hlen.
    induction Hg as [|r rs Hr _ IHr]; cbn; [reflexivity|].
    rewrite Hr, IHr. reflexivity. }
  assert (Hmap : map Gas (List.concat dfs)
                 = flat_map (fun g => repeat g 6) target_gases).
  { clear -Hgas. induction Hgas as [|g rs gs ds Hg _ IH]; cbn;
      [reflexivity|].
    rewrite map_app, Hg, IH. reflexivity. }
  split; [|exact Hmap].
  rewrite <- (List.length_map Gas), Hmap. reflexivity.
Qed.

(** X7: the chart of a run that ends normally has four panels, one per gas
    in the order of [target_gases]; the panel of a gas shows the six records
    of that gas and of no other as its forecast path, and as its band a
    closed outline of twelve points: the upper bounds forward in time, then
    the lower bounds backward. *)
Theorem figure_panels_per_gas (fetched : result RawFrame)
    (logo : option string) (env : Env) :
  run SARIMAX fetched logo = (Ok tt, env) ->
  exists recs fig,
    files env = [(output_csv_path, Csv recs); (output_html_path, Html fig)]
    /\ map panel_gas (panels fig) = target_gases
    /\ Forall
         (fun pn =>
            let rs := gas_rows (panel_gas pn) recs in
            Forall (fun r => Gas r = panel_gas pn) rs
            /\ List.length rs = 6%nat
            /\ forecast_path pn = map (fun r => (Date r, Forecast r)) rs
            /\ List.length (band pn) = 12%nat
            /\ map fst (band pn) = map Date rs ++ rev (map Date rs)
            /\ map snd (band pn)
               = map Upper_CI rs ++ rev (map Lower_CI rs))
         (panels fig).
Proof.
  intros Hrun. destruct (run_blocks _ _ _ Hrun) as (df & dfs & Hfiles & Hall).
  exists (List.concat dfs), (make_figure df (List.concat dfs) logo).
  split; [exact Hfiles|]. clear Hfiles Hrun. revert Hall.
  generalize (List.concat dfs) as recs. intros recs Hall.
  unfold make_figure. cbn [panels]. split.
  - rewrite map_map. cbn [panel_gas make_panel]. apply map_id.
  - apply Forall_map. apply Forall_forall. intros g Hg.
    assert (Hrs : Forall (fun r => Gas r = g) (gas_rows g recs)
                  /\ List.length (gas_rows g recs) = 6%nat).
    { clear -Hall Hg. induction Hall as [|g' rs gs ds (Hr & Hgas & Hlen) _ IH];
        [destruct Hg|].
      destruct Hg as [->|Hg]; [|exact (IH Hg)].
      rewrite Hr. split; [exact Hgas | exact Hlen]. }
    destruct Hrs as [Hgas Hlen].
    unfold make_panel. cbn [panel_gas forecast_path band].
    fold (gas_rows g recs).
    split; [exact Hgas|]. split; [exact Hlen|]. split; [reflexivity|].
    split; [|split].
    + rewrite List.length_app, List.length_rev, !List.length_map, Hlen.
      reflexivity.
    + rewrite map_app, map_rev, !map_map. reflexivity.
    + rewrite map_app, map_rev, !map_map. reflexivity.
Qed.

End OutputTheorems.

(** ** How a run ends *)

Section RunShape.

Variable SARIMAX : fitter.

(** A pass prints its progress line and nothing else, however it ends. *)
Lemma forecast_gas_env (df : Frame) (gas : string) (env env' : Env)
    (r : result (list ForecastRecord)) :
  forecast_gas SARIMAX df gas env = (r, env') ->
  env' = mkEnv (stdout env ++ [progress_line gas]) (files env).
Proof.
  unfold forecast_gas, bind, print, lift, ret.
  destruct (optimize_sarima SARIMAX (column df gas) Grid.p Grid.d Grid.q
              Grid.P Grid.D Grid.Q Grid.s) as [bo bso].
  destruct (SARIMAX (column df gas) bo bso false false) as [res|e];
    [|intros H; inversion H; reflexivity].
  destruct (get_forecast res forecast_horizon) as [fc|e];
    [|intros H; inversion H; reflexivity].
  destruct (date_range _ forecast_horizon) as [dates|e];
    [|intros H; inversion H; reflexivity].
  destruct (make_forecast_df gas dates _ _ _) as [recs'|e];
    intros H; inversion H; reflexivity.
Qed.

(** The loop stops at the first pass that raises. *)
Lemma forecast_loop_trace (df : Frame) (gases : list string) :
  forall acc env r env',
    forecast_loop SARIMAX df gases acc env = (r, env') ->
    files env' = files env
    /\ match r with
       | Ok _ => stdout env' = stdout env ++ map progress_line gases
       | Raise e =>
           exists pre g post,
             gases = pre ++ g :: post
             /\ stdout env'
                = stdout env ++ map progress_line pre ++ [progress_line g]
             /\ Forall (fun g' => exists rs env0 env1,
                          forecast_gas SARIMAX df g' env0 = (Ok rs, env1))
                  pre
             /\ exists env0 env1,
                  forecast_gas SARIMAX df g env0 = (Raise e, env1)
       end.
Proof.
  induction gases as [|gas gases IH]; intros acc env r env'; cbn.
  - unfold ret. intros H. inversion H; subst. split; [reflexivity|].
    cbn. rewrite app_nil_r. reflexivity.
  - unfold bind.
    destruct (forecast_gas SARIMAX df gas env) as [[recs|e] env1] eqn:Hgas;
      pose proof (forecast_gas_env _ _ _ _ _ Hgas) as Henv.
    + intros H. apply IH in H. destruct H as [Hfiles Hr].
      rewrite Henv in Hfiles, Hr. cbn [stdout files] in Hfiles, Hr.
      split; [exact Hfiles|]. destruct r as [out|e].
      * rewrite Hr, <- app_assoc. reflexivity.
      * destruct Hr as (pre & g & post & -> & Hout & Hpre & Hg).
        exists (gas :: pre), g, post. split; [reflexivity|]. split.
        -- rewrite Hout, <- !app_assoc. reflexivity.
        -- split; [|exact Hg]. constructor; [|exact Hpre].
           exists recs, env, env1. exact Hgas.
    + intros H. inversion H; subst r env'. clear H.
      split; [rewrite Henv; reflexivity|].
      exists [], gas, gases. split; [reflexivity|]. split.
      * rewrite Henv. reflexivity.
      * split; [constructor|]. exists env, env1. exact Hgas.
Qed.


(** X9: when a forecasting pass raises, the run ends with that exception;
    the passes before it all succeeded, no later pass is started, and the
    last line printed names the gas whose pass raised. *)
Theorem run_stops_at_failing_gas (raw : RawFrame) (df : Frame)
    (logo : option string) (e : exn) (env : Env) :
  prepare raw = Ok df ->
  run SARIMAX (Ok raw) logo = (Raise e, env) ->
  exists pre g post,
    target_gases = pre ++ g :: post
    /\ stdout env = preamble ++ map progress_line pre ++ [progress_line g]
    /\ Forall (fun g' => exists rs env0 env1,
                 forecast_gas SARIMAX df g' env0 = (Ok rs, env1)) pre
    /\ (exists env0 env1, forecast_gas SARIMAX df g env0 = (Raise e, env1))
    /\ files env = [].
Proof.
  intros Hprep Hrun. unfold run, main in Hrun.
  unfold bind at 1 2 in Hrun. cbn [print lift] in Hrun.
  rewrite Hprep in Hrun. unfold bind at 1 2 in Hrun. cbn [print] in Hrun.
  destruct (forecast_loop SARIMAX df target_gases [] _)
    as [[out|e1] env1] eqn:Hloop.
  - unfold bind, write_file, print in Hrun. cbn in Hrun. discriminate.
  - inversion Hrun; subst e1 env1. clear Hrun.
    apply forecast_loop_trace in Hloop. cbn [stdout files] in Hloop.
    destruct Hloop as (Hfiles & pre & g & post & Hg & Hout & Hpre & Hraise).
    exists pre, g, post. split; [exact Hg|]. split; [exact Hout|].
    split; [exact Hpre|]. split; [exact Hraise | exact Hfiles].
Qed.

Lemma index_max_none (idx : list (option Timestamp)) :
  (forall x, In x idx -> x = None) -> index_max idx = None.
Proof.
  unfold index_max. induction idx as [|x idx IH]; intros Hnone; cbn;
    [reflexivity|].
  rewrite (Hnone x (or_introl eq_refl)). cbn. apply IH.
  intros y Hy. apply Hnone. right. exact Hy.
Qed.

Lemma forecast_gas_no_date (df : Frame) (gas : string) (env : Env) :
  (forall r, In r (rows df) -> index r = None) ->
  exists e,
    forecast_gas SARIMAX df gas env
    = (Raise e, mkEnv (stdout env ++ [progress_line gas]) (files env))
    /\ ((exists o so, SARIMAX (column df gas) o so false false = Raise e)
        \/ (exists o so results,
              SARIMAX (column df gas) o so false false = Ok results
              /\ get_forecast results forecast_horizon = Raise e)
        \/ e = ValueError "Neither `start` nor `end` can be NaT").
Proof.
  intros Hnone.
  assert (Hmax : index_max (series_index (column df gas)) = None).
  { apply index_max_none. intros x Hx. rewrite series_index_column in Hx.
    apply in_map_iff in Hx. destruct Hx as (r & <- & Hr). exact (Hnone r Hr). }
  unfold forecast_gas, bind, print, lift, ret.
  destruct (optimize_sarima SARIMAX (column df gas) Grid.p Grid.d Grid.q
              Grid.P Grid.D Grid.Q Grid.s) as [bo bso].
  destruct (SARIMAX (column df gas) bo bso false false) as [res|e] eqn:Hfit.
  - destruct (get_forecast res forecast_horizon) as [fc|e] eqn:Hget.
    + rewrite Hmax. cbn [date_offset option_map date_range].
      eexists. split; [reflexivity|]. right. right. reflexivity.
    + exists e. split; [reflexivity|]. right. left. eauto.
  - exists e. split; [reflexivity|]. left. eauto.
Qed.

(** X10: a cleaned frame without any date, in particular an empty one,
    never yields a forecast: whatever the fitting primitive does, the first
    pass raises (the fit does, or the forecast does, or [date_range] does for
    want of a start date) and the run ends there with no file written. *)
Theorem run_without_dates_raises (raw : RawFrame) (df : Frame)
    (logo : option string) :
  prepare raw = Ok df ->
  (forall r, In r (rows df) -> index r = None) ->
  exists e env,
    run SARIMAX (Ok raw) logo = (Raise e, env)
    /\ files env = []
    /\ stdout env = preamble ++ [progress_line "CO2_seasonal"]
    /\ ((exists o so,
           SARIMAX (column df "CO2_seasonal") o so false false = Raise e)
        \/ (exists o so results,
              SARIMAX (column df "CO2_seasonal") o so false false
              = Ok results
              /\ get_forecast results forecast_horizon = Raise e)
        \/ e = ValueError "Neither `start` nor `end` can be NaT").
Proof.
  intros Hprep Hnone. unfold run, main.
  unfold bind at 1 2. cbn [print lift]. rewrite Hprep.
  unfold bind at 1 2. cbn [print]. unfold target_gases.
  cbn [forecast_loop]. unfold bind at 1.
  match goal with
  | |- context [forecast_gas SARIMAX df ?g ?env0] =>
      destruct (forecast_gas_no_date df g env0 Hnone) as (e & Hgas & Hwhy)
  end.
  rewrite Hgas. exists e. eexists. split; [reflexivity|].
  split; [reflexivity|]. split; [reflexivity | exact Hwhy].
Qed.

(** X11: when the final fit returns a forecast whose means or whose
    interval table do not have six entries, the pass raises the
    [ValueError] of the table construction: no shorter, longer or padded
    table of records is ever produced. *)
Theorem forecast_gas_wrong_length (df : Frame) (gas : string) (env : Env)
    (results : Results) (fc : Prediction) (last : Timestamp) :
  SARIMAX (column df gas)
    (fst (script_search SARIMAX (column df gas)))
    (snd (script_search SARIMAX (column df gas))) false false
  = Ok results ->
  get_forecast results forecast_horizon = Ok fc ->
  index_max (series_index (column df gas)) = Some last ->
  List.length (predicted_mean fc) <> forecast_horizon
  \/ List.length (conf_int fc default_alpha) <> forecast_horizon ->
  forecast_gas SARIMAX df gas env
  = (Raise (ValueError "All arrays must be of the same length"),
     mkEnv (stdout env ++ [progress_line gas]) (files env)).
Proof.
  intros Hfit Hget Hmax Hlen.
  unfold forecast_gas, script_search, bind, print, lift, ret in *.
  destruct (optimize_sarima SARIMAX (column df gas) Grid.p Grid.d Grid.q
              Grid.P Grid.D Grid.Q Grid.s) as [bo bso].
  cbn [fst snd] in Hfit. rewrite Hfit, Hget, Hmax.
  cbn [date_offset option_map date_range].
  unfold make_forecast_df.
  rewrite !List.length_map, List.length_seq.
  destruct (Nat.eqb_spec (List.length (predicted_mean fc)) forecast_horizon)
    as [Hm|Hm]; cbn [andb]; [|reflexivity].
  destruct (Nat.eqb_spec (List.length (conf_int fc default_alpha))
              forecast_horizon) as [Hc|Hc]; cbn [andb]; [|reflexivity].
  exfalso. destruct Hlen; contradiction.
Qed.

End RunShape.

(** ** The history shown in the chart *)

Lemma ts_leb_ordinal (a b : Timestamp) :
  month_start a -> month_start b ->
  (ts_leb a b = true <-> month_ordinal a <= month_ordinal b).
Proof.
  intros [Hda Hma] [Hdb Hmb]. unfold ts_leb, ts_compare, month_ordinal.
  rewrite Hda, Hdb.
  destruct (Z.compare_spec (year a) (year b));
    destruct (Z.compare_spec (month a) (month b));
    cbn -[Z.mul]; split; intros Hle; try reflexivity; try discriminate;
    try lia.
Qed.

Lemma month_start_ordinal_inj (a b : Timestamp) :
  month_start a -> month_start b ->
  month_ordinal a = month_ordinal b -> a = b.
Proof.
  intros [Hda Hma] [Hdb Hmb] Ho. unfold month_ordinal in Ho.
  destruct a as [ya ma da], b as [yb mb db]. cbn [year month day] in *.
  f_equal; lia.
Qed.

Lemma NoDup_map_filter {A B : Type} (g : A -> B) (f : A -> bool)
    (l : list A) :
  NoDup (map g l) -> NoDup (map g (filter f l)).
Proof.
  induction l as [|x l IH]; cbn; intros H; [constructor|].
  inversion H as [|? ? Hnotin Hnd]; subst.
  destruct (f x); cbn; [|exact (IH Hnd)].
  constructor; [|exact (IH Hnd)].
  intros Hin. apply Hnotin. apply in_map_iff in Hin.
  destruct Hin as (y & Hy & Hin). apply filter_In in Hin.
  apply in_map_iff. exists y. tauto.
Qed.

Lemma NoDup_map_coarser {A B C : Type} (g : A -> B) (h : A -> C)
    (l : list A) :
  (forall x y, In x l -> In y l -> h x = h y -> g x = g y) ->
  NoDup (map g l) -> NoDup (map h l).
Proof.
  induction l as [|x l IH]; cbn; intros Hinj H; [constructor|].
  inversion H as [|? ? Hnotin Hnd]; subst. constructor.
  - intros Hin. apply Hnotin. apply in_map_iff in Hin.
    destruct Hin as (y & Hy & Hin). apply in_map_iff. exists y.
    split; [|exact Hin]. symmetry. apply Hinj; auto.
  - apply IH; [|exact Hnd]. intros a b Ha Hb. apply Hinj; auto.
Qed.

(** The month of a row on the time line, 0 for a row without date. *)
Lemma window_rows_bound (rs : list Row) (lo : Z) :
  NoDup (map index rs) ->
  (forall r, In r rs ->
     exists t, index r = Some t /\ month_start t
               /\ lo <= month_ordinal t < lo + 12) ->
  (List.length rs <= 12)%nat.
Proof.
  intros Hnd Hwin.
  pose (ord := fun r : Row =>
          match index r with Some t => month_ordinal t | None => 0 end).
  assert (Hords : NoDup (map ord rs)).
  { apply (NoDup_map_coarser index ord); [|exact Hnd].
    intros x y Hx Hy Hxy.
    destruct (Hwin x Hx) as (tx & Hix & Hsx & _).
    destruct (Hwin y Hy) as (ty & Hiy & Hsy & _).
    unfold ord in Hxy. rewrite Hix, Hiy in Hxy. rewrite Hix, Hiy.
    f_equal. exact (month_start_ordinal_inj _ _ Hsx Hsy Hxy). }
  assert (Hincl : incl (map ord rs)
                    (map (fun i => lo + Z.of_nat i) (seq 0 12))).
  { intros z Hz. apply in_map_iff in Hz. destruct Hz as (r & <- & Hr).
    destruct (Hwin r Hr) as (t & Hi & _ & Hlo & Hhi).
    unfold ord. rewrite Hi. apply in_map_iff.
    exists (Z.to_nat (month_ordinal t - lo)). split; [lia|].
    apply in_seq. lia. }
  pose proof (NoDup_incl_length Hords Hincl) as Hlen.
  rewrite !List.length_map, List.length_seq in Hlen. exact Hlen.
Qed.

(** X12: the history shown in the chart consists of the rows of the cleaned
    frame whose month is among the twelve that end with the last month of
    the frame, in the order of the frame; rows without a date are never
    shown; when the dates of the frame are all different, at most twelve
    rows are shown. *)
Theorem historical_filtered_last_12_months (raw : RawFrame) (df : Frame) :
  prepare raw = Ok df ->
  (forall r, In r (rows (historical_filtered df))
     <-> In r (rows df)
         /\ exists t last,
              index r = Some t
              /\ index_max (map index (rows df)) = Some last
              /\ month_ordinal last - 11 <= month_ordinal t
                 <= month_ordinal last)
  /\ StronglySorted row_le (rows (historical_filtered df))
  /\ (NoDup (map index (rows df)) ->
      (List.length (rows (historical_filtered df)) <= 12)%nat).
Proof.
  intros Hprep.
  pose proof (prepare_month_start _ _ Hprep) as Hstart.
  assert (Hiff : forall r, In r (rows (historical_filtered df))
     <-> In r (rows df)
         /\ exists t last,
              index r = Some t
              /\ index_max (map index (rows df)) = Some last
              /\ month_ordinal last - 11 <= month_ordinal t
                 <= month_ordinal last).
  { intros r. unfold historical_filtered. cbn [rows].
    rewrite filter_In. split.
    - intros [Hin Hge]. split; [exact Hin|].
      destruct (index r) as [t|] eqn:Hi; [|discriminate].
      destruct (index_max (map index (rows df))) as [last|] eqn:Hmax;
        [|discriminate].
      exists t, last. split; [reflexivity|]. split; [reflexivity|].
      destruct (index_max_spec _ _ Hmax) as [Hlast Hle].
      apply in_map_iff in Hlast. destruct Hlast as (rl & Hil & Hrl).
      pose proof (Hstart rl last Hrl Hil) as Hsl.
      pose proof (Hstart r t Hin Hi) as Hst.
      cbn [date_offset option_map index_geb] in Hge.
      pose proof (add_months_start last (-11) (proj1 Hsl)) as Hs11.
      apply (ts_leb_ordinal _ _ Hs11 Hst) in Hge.
      rewrite add_months_ordinal in Hge.
      assert (Hin' : In (Some t) (map index (rows df))).
      { apply in_map_iff. exists r. auto. }
      pose proof (proj1 (ts_leb_ordinal _ _ Hst Hsl) (Hle t Hin')). lia.
    - intros (Hin & t & last & Hi & Hmax & Hlo & _). split; [exact Hin|].
      rewrite Hi, Hmax. cbn [date_offset option_map index_geb].
      destruct (index_max_spec _ _ Hmax) as [Hlast _].
      apply in_map_iff in Hlast. destruct Hlast as (rl & Hil & Hrl).
      pose proof (Hstart rl last Hrl Hil) as Hsl.
      pose proof (Hstart r t Hin Hi) as Hst.
      pose proof (add_months_start last (-11) (proj1 Hsl)) as Hs11.
      apply (ts_leb_ordinal _ _ Hs11 Hst).
      rewrite add_months_ordinal. lia. }
  split; [exact Hiff|]. split.
  - unfold historical_filtered. cbn [rows]. apply filter_sorted.
    destruct (prepare_ok _ _ Hprep) as (parsed & _ & ->). cbn [rows].
    unfold dropna. apply filter_sorted. apply sort_index_sorted.
  - intros Hnd.
    destruct (index_max (map index (rows df))) as [last|] eqn:Hmax.
    + apply (window_rows_bound _ (month_ordinal last - 11)).
      * unfold historical_filtered. cbn [rows].
        apply NoDup_map_filter. exact Hnd.
      * intros r Hr. apply Hiff in Hr.
        destruct Hr as (Hin & t & last' & Hi & Hmax' & Hlo & Hhi).
        try rewrite Hmax in Hmax'. inversion Hmax'; subst last'.
        exists t. split; [exact Hi|]. split; [exact (Hstart r t Hin Hi)|].
        lia.
    + destruct (rows (historical_filtered df)) as [|r rs] eqn:Hrows;
        [cbn; lia|].
      exfalso. assert (Hr : In r (r :: rs)) by (left; reflexivity).
      apply Hiff in Hr. destruct Hr as (_ & t & last & _ & Hmax' & _).
      try rewrite Hmax in Hmax'. discriminate.
Qed.

(** ** The logo *)



(** ** The further properties at the sample table *)

Lemma run_sample_env :
  run fit_sample (Ok sample_raw) None = (Ok tt, sample_env).
Proof. vm_compute. reflexivity. Qed.

(** X6 at the sample run. *)
Lemma csv_grouped_by_gas_witness :
  exists recs fig,
    files sample_env
    = [(output_csv_path, Csv recs); (output_html_path, Html fig)]
    /\ List.length recs = 24%nat.
Proof.
  destruct (csv_grouped_by_gas fit_sample (Ok sample_raw) None sample_env
              run_sample_env) as (recs & fig & dfs & Hfiles & _ & _ & Hlen & _).
  exists recs, fig. split; [exact Hfiles | exact Hlen].
Defined.

(** X7 at the sample run. *)
Lemma figure_panels_per_gas_witness :
  exists recs fig,
    files sample_env
    = [(output_csv_path, Csv recs); (output_html_path, Html fig)]
    /\ map panel_gas (panels fig) = target_gases.
Proof.
  destruct (figure_panels_per_gas fit_sample (Ok sample_raw) None sample_env
              run_sample_env) as (recs & fig & Hfiles & Hgas & _).
  exists recs, fig. split; [exact Hfiles | exact Hgas].
Defined.


(** X9 at the sample table with a fit that breaks down on CH4: the run
    stops at the second gas. *)
Lemma run_stops_at_failing_gas_witness :
  exists pre g post,
    target_gases = pre ++ g :: post
    /\ preamble ++ [progress_line co2; progress_line "CH4_seasonal"%string]
       = preamble ++ map progress_line pre ++ [progress_line g].
Proof.
  destruct (run_stops_at_failing_gas fit_failing_ch4 sample_raw sample_clean
              None (LinAlgError "Singular matrix")
              (mkEnv (preamble
                      ++ [progress_line co2;
                          progress_line "CH4_seasonal"%string])
                 [])
              prepare_sample)
    as (pre & g & post & Hg & Hout & _).
  - vm_compute. reflexivity.
  - exists pre, g, post. split; [exact Hg | exact Hout].
Defined.

(** X10 at a table whose only row has no date: the fit returns, and
    [date_range] raises. *)
Lemma run_without_dates_raises_witness :
  exists e env,
    run fit_sample (Ok sample_raw_nat) None = (Raise e, env)
    /\ files env = [].
Proof.
  destruct (run_without_dates_raises fit_sample sample_raw_nat
              sample_clean_nat None)
    as (e & env & Hrun & Hfiles & _).
  - reflexivity.
  - intros r [<-|[]]. reflexivity.
  - exists e, env. split; [exact Hrun | exact Hfiles].
Defined.

(** X11 at a fit whose forecasts have five steps. *)
Lemma forecast_gas_wrong_length_witness :
  forecast_gas (fit_steps 5) sample_clean co2 empty_env
  = (Raise (ValueError "All arrays must be of the same length"),
     mkEnv [progress_line co2] []).
Proof.
  apply (forecast_gas_wrong_length (fit_steps 5) sample_clean co2 empty_env
           (mkResults (float_of_pos 100)
              (fun _ => Ok (sample_forecast (column sample_clean co2) 5)))
           (sample_forecast (column sample_clean co2) 5)
           (mkTs 2024 12 1)).
  - reflexivity.
  - reflexivity.
  - reflexivity.
  - left. cbn. intros H. discriminate H.
Defined.

(** X12 at the sample table. *)
Lemma historical_filtered_last_12_months_witness :
  StronglySorted row_le (rows (historical_filtered sample_clean)).
Proof.
  apply (historical_filtered_last_12_months sample_raw sample_clean
           prepare_sample).
Defined.


(** ** The months of a run *)

Lemma forecast_gas_spec_dates (SARIMAX : fitter) (df : Frame) (gas : string)
    (rs : list ForecastRecord) :
  forecast_gas_spec SARIMAX df gas rs ->
  exists last,
    index_max (map index (rows df)) = Some last
    /\ map Date rs = forecast_dates_of last.
Proof.
  intros [r fc last Hfit Hget Hmax Hm Hc ->].
  destruct (forecast_records_columns gas last fc Hm Hc) as (Hd & _).
  rewrite series_index_column in Hmax.
  exists last. split; [exact Hmax | exact Hd].
Qed.

(** X14: in a run that ends normally the four gases are forecast for the
    same six months: the records of every gas carry the same dates in the
    same order, those that follow the last date of the cleaned frame. *)
Theorem forecast_months_shared (SARIMAX : fitter)
    (fetched : result RawFrame) (logo : option string) (env : Env) :
  run SARIMAX fetched logo = (Ok tt, env) ->
  exists recs fig raw df last,
    files env = [(output_csv_path, Csv recs); (output_html_path, Html fig)]
    /\ fetched = Ok raw /\ prepare raw = Ok df
    /\ index_max (map index (rows df)) = Some last
    /\ Forall (fun g =>
                 map Date (gas_rows g recs)
                 = map (fun i => add_months last (1 + Z.of_nat i))
                     (seq 0 forecast_horizon))
         target_gases.
Proof.
  intros Hrun. apply run_ok in Hrun.
  destruct Hrun as (raw & df & dfs & Hraw & Hprep & Hall & Hfiles).
  assert (Hrows : Forall2 (fun g rs => gas_rows g (List.concat dfs) = rs)
                    target_gases dfs).
  { apply gas_rows_of_blocks.
    eapply Forall2_impl; [|exact Hall]. intros g rs Hspec.
    exact (proj1 (forecast_gas_spec_block _ _ _ _ Hspec)). }
  assert (Hlast : exists last, index_max (map index (rows df)) = Some last).
  { unfold target_gases in Hall. inversion Hall as [|g rs gs ds Hspec _]; subst.
    destruct (forecast_gas_spec_dates _ _ _ _ Hspec) as (last & Hmax & _).
    eauto. }
  destruct Hlast as [last Hmax].
  exists (List.concat dfs), (make_figure df (List.concat dfs) logo), raw, df,
    last.
  split; [exact Hfiles|]. split; [exact Hraw|]. split; [exact Hprep|].
  split; [exact Hmax|].
  assert (Hday : day last = 1).
  { destruct (index_max_spec _ _ Hmax) as [Hin _].
    apply in_map_iff in Hin. destruct Hin as (row & Hidx & Hrow).
    exact (proj1 (prepare_month_start _ _ Hprep row last Hrow Hidx)). }
  clear Hfiles. revert Hrows. generalize (List.concat dfs) as recs.
  intros recs Hrows.
  induction Hall as [|g rs gs ds Hspec _ IH];
    inversion Hrows as [|? ? ? ? Hg Hrest]; subst; constructor.
  - destruct (forecast_gas_spec_dates _ _ _ _ Hspec) as (last' & Hmax' & Hd).
    rewrite Hmax in Hmax'. inversion Hmax'; subst last'.
    rewrite Hd. unfold forecast_dates_of, start_after.
    apply forecast_dates_from_last. exact Hday.
  - apply IH. exact Hrest.
Qed.

(** X14 at the sample run. *)
Lemma forecast_months_shared_witness :
  exists recs last,
    Forall (fun g =>
              map Date (gas_rows g recs)
              = map (fun i => add_months last (1 + Z.of_nat i))
                  (seq 0 forecast_horizon))
      target_gases.
Proof.
  destruct (forecast_months_shared fit_sample (Ok sample_raw) None sample_env
              run_sample_env)
    as (recs & fig & raw & df & last & _ & _ & _ & _ & Hall).
  exists recs, last. exact Hall.
Defined.
